(** * cleanBibImpact: the data-collection pipeline of [src/data/make_dataset.py]

    A shallow embedding of the script that, for each cited DOI, asks
    opencitations.net for the citing DOIs, asks Crossref for the first and
    last author of every citing paper, asks gender-api.com for a gender
    guess of both given names, and accumulates one table of citing papers.

    Conventions of the embedding.
    - A Python value that comes out of a JSON response is a [json]; JSON
      numbers are integers (the fields the script reads, [total-results]
      and [accuracy], are integers), floats are not modelled.
    - A Python [str] is a [string] whose characters are read as the code
      points U+0000 to U+00FF.
    - A Python exception is an [Error] of the [result] monad; the script has
      no [try], so an [Error] travels to the top of the run.
    - The three remote services are fields of a [Services] record: what the
      service answers to a request, or the exception the request raises.
    - A pandas [DataFrame] is the list of its rows, a row maps a column name
      to the cell assigned to it (an absent column is a missing cell); the
      conversion of a cell to the dtype of its column (an integer accuracy
      is kept as a float) is not modelled, and no statement is about the
      value of an accuracy cell; the progress [print]s and the final
      [to_csv] are left out.
    - Of [src/visualization/visualize_manual_data.py], which reads the
      percentages out of the diversity statements and plots them, the part
      between the regular expression and the plots is embedded, in
      [Module Visualize]; a Python [float] is a binary64 [float]. *)

From Stdlib Require Import ZArith Ascii PrimFloat.
From stdpp Require Import base option list strings gmap.

Set Warnings "-register-all,-inexact-float".

(** ** Exceptions and the error monad *)

Inductive exn : Type :=
  | KeyError
  | IndexError
  | TypeError
  | AttributeError
  | UnboundLocalError (name : string)
  | RequestException.

Inductive result (A : Type) : Type :=
  | Ok (a : A)
  | Error (e : exn).
Arguments Ok {A} a.
Arguments Error {A} e.

#[global] Instance result_ret : MRet result := λ A a, Ok a.
#[global] Instance result_bind : MBind result := λ A B f r,
  match r with Ok a => f a | Error e => Error e end.
#[global] Instance result_fmap : FMap result := λ A B f r,
  match r with Ok a => Ok (f a) | Error e => Error e end.

Definition of_option {A} (e : exn) (o : option A) : result A :=
  match o with Some a => Ok a | None => Error e end.

(** ** JSON values and the Python operations the script applies to them *)

Inductive json : Type :=
  | JNull
  | JBool (b : bool)
  | JNum (n : Z)
  | JStr (s : string)
  | JArr (items : list json)
  | JObj (fields : list (string * json)).

(** A [dict] keeps its keys in insertion order; keys are unique, and a lookup
    takes the entry of the key. *)
Fixpoint dict_get (k : string) (d : list (string * json)) : option json :=
  match d with
  | [] => None
  | (k', v) :: d' => if String.eqb k k' then Some v else dict_get k d'
  end.

Definition dict_keys (d : list (string * json)) : list string := d.*1.

(** [bool(x)], as in [if items:]. *)
Definition py_truthy (x : json) : bool :=
  match x with
  | JNull => false
  | JBool b => b
  | JNum n => negb (n =? 0)%Z
  | JStr s => negb (String.eqb s "")
  | JArr l => match l with [] => false | _ => true end
  | JObj d => match d with [] => false | _ => true end
  end.

Fixpoint chars (s : string) : list string :=
  match s with
  | EmptyString => []
  | String c s' => String c EmptyString :: chars s'
  end.

(** [for item in x]: the elements of a list, the keys of a dict, the
    characters of a str; other values are not iterable. *)
Definition py_iter (x : json) : result (list json) :=
  match x with
  | JArr l => Ok l
  | JObj d => Ok (JStr <$> dict_keys d)
  | JStr s => Ok (JStr <$> chars s)
  | _ => Error TypeError
  end.

(** [x[k]] for a str key [k]. *)
Definition py_getitem (x : json) (k : string) : result json :=
  match x with
  | JObj d => of_option KeyError (dict_get k d)
  | _ => Error TypeError
  end.

(** Position of index [i] in a sequence of length [len]; a negative index
    counts from the end. *)
Definition py_index (len : nat) (i : Z) : option nat :=
  let j := (if i <? 0 then Z.of_nat len + i else i)%Z in
  if ((0 <=? j) && (j <? Z.of_nat len))%Z then Some (Z.to_nat j) else None.

(** [x[i]] for an int index [i]. A dict out of JSON has str keys only. *)
Definition py_getitem_int (x : json) (i : Z) : result json :=
  match x with
  | JArr l => of_option IndexError (py_index (length l) i ≫= (l !!.))
  | JStr s => of_option IndexError (py_index (length (chars s)) i ≫= ((JStr <$> chars s) !!.))
  | JObj _ => Error KeyError
  | _ => Error TypeError
  end.

(** [x > 0]; [bool] is a subclass of [int]. *)
Definition py_gt_zero (x : json) : result bool :=
  match x with
  | JNum n => Ok (0 <? n)%Z
  | JBool b => Ok b
  | _ => Error TypeError
  end.

(** [x.keys()] *)
Definition py_keys (x : json) : result (list string) :=
  match x with
  | JObj d => Ok (dict_keys d)
  | _ => Error AttributeError
  end.

Definition is_substring (k s : string) : bool :=
  match String.index 0 k s with Some _ => true | None => false end.

(** [k in x] for a str [k]: a key of a dict, an element of a list, a
    substring of a str. *)
Definition py_contains (k : string) (x : json) : result bool :=
  match x with
  | JObj d => Ok (bool_decide (k ∈ dict_keys d))
  | JArr l => Ok (existsb (λ y, match y with JStr s => String.eqb s k | _ => false end) l)
  | JStr s => Ok (is_substring k s)
  | _ => Error TypeError
  end.

(** ** The str methods used to trim initials *)

(** [s.replace(".", " ")] *)
Fixpoint replace_periods (s : string) : string :=
  match s with
  | EmptyString => EmptyString
  | String c s' =>
      String (if Ascii.eqb c "." then " " else c)%char (replace_periods s')
  end.

(** [str.isspace] on the code points below 256. *)
Definition is_space (c : ascii) : bool :=
  let n := nat_of_ascii c in
  ((9 <=? n) && (n <=? 13)) || ((28 <=? n) && (n <=? 32))
  || (n =? 133) || (n =? 160).

(** [s.split()]: the maximal runs of non-whitespace characters, in order. *)
Fixpoint split (s : string) : list string :=
  match s with
  | EmptyString => []
  | String c s' =>
      if is_space c then split s'
      else match s' with
           | EmptyString => [String c EmptyString]
           | String c' _ =>
               if is_space c' then String c EmptyString :: split s'
               else match split s' with
                    | t :: ts => String c t :: ts
                    | [] => [String c EmptyString]
                    end
           end
  end.

Definition py_replace_periods (x : json) : result string :=
  match x with
  | JStr s => Ok (replace_periods s)
  | _ => Error AttributeError
  end.

(** ** Data frames *)

Abbreviation DataFrame := (list (gmap string json)).

(** [df = pd.DataFrame(); df[col] = values] *)
Definition df_from_column (col : string) (values : list json) : DataFrame :=
  (λ v, {[col := v]}) <$> values.

(** [df[col]], a missing cell read as null. *)
Definition df_column (col : string) (df : DataFrame) : list json :=
  (λ r : gmap string json, default JNull (r !! col)) <$> df.

(** [df.at[n, col] = v]. The rows are labelled [0 .. len(df) - 1]; a label
    past the end enlarges the frame by a row. The cell holds [v] as it was
    assigned: that pandas stores a number written into a new column as a
    float is not modelled. *)
Definition df_at_set (n : nat) (col : string) (v : json) (df : DataFrame) : DataFrame :=
  match df !! n with
  | Some r => <[n := <[col := v]> r]> df
  | None => df ++ [{[col := v]}]
  end.

(** [df[col] = v] for a scalar [v]. *)
Definition df_assign (col : string) (v : json) (df : DataFrame) : DataFrame :=
  (λ r : gmap string json, <[col := v]> r) <$> df.

(** [df1.append(df2)] *)
Definition df_append (df1 df2 : DataFrame) : DataFrame := df1 ++ df2.

(** [enumerate(xs)] *)
Definition enumerate {A} (xs : list A) : list (nat * A) := imap (λ n x, (n, x)) xs.

(** ** The remote services *)

Record Services : Type := {
  (** [requests.get(url).json()] *)
  requests_get_json : string → result json;
  (** [Crossref().works(query="", select=["DOI", "author"], limit=1,
      filter={"doi": doi})] *)
  crossref_works : json → result json;
  (** the content of [gender_api_key.txt], stripped *)
  GENDER_API_KEY : string
}.

(** ** The script *)

Section make_dataset.
Variable sv : Services.

(** The [for item in items] loop of [get_citing_dois]. *)
Fixpoint get_citing_dois_loop (items : list json) (citing_dois : list json)
    : result (list json) :=
  match items with
  | [] => Ok citing_dois
  | item :: items' =>
      c ← py_getitem item "citing";
      get_citing_dois_loop items' (citing_dois ++ [c])
  end.

Definition get_citing_dois (cited_doi : string) : result (list json) :=
  let url := "https://opencitations.net/index/coci/api/v1/citations/" +:+ cited_doi in
  items ← requests_get_json sv url;
  if py_truthy items then
    its ← py_iter items;
    get_citing_dois_loop its []
  else Ok [].

Definition get_name_from_author_dict (author_dict : json) : result string :=
  has ← py_contains "given" author_dict;
  if negb (has : bool) then Ok ""
  else
    given ← py_getitem author_dict "given";
    replaced ← py_replace_periods given;
    of_option IndexError (split replaced !! 0).

Definition names_from_xref (doi : json) : result (string * string) :=
  works ← crossref_works sv doi;
  message ← py_getitem works "message";
  total ← py_getitem message "total-results";
  found ← py_gt_zero total;
  if (found : bool) then
    message ← py_getitem works "message";
    items ← py_getitem message "items";
    item ← py_getitem_int items 0;
    keys ← py_keys item;
    if bool_decide ("author" ∈ keys) then
      authors ← py_getitem item "author";
      author ← py_getitem_int authors 0;
      first_author ← get_name_from_author_dict author;
      authors ← py_getitem item "author";
      author ← py_getitem_int authors (-1);
      last_author ← get_name_from_author_dict author;
      Ok (first_author, last_author)
    else Ok ("", "")
  else Error (UnboundLocalError "first_author").

Definition name_to_gender (name : string) : result (json * json) :=
  let url := "https://gender-api.com/get?key=" +:+ GENDER_API_KEY sv
             +:+ "&name=" +:+ name in
  response ← requests_get_json sv url;
  gender ← py_getitem response "gender";
  accuracy ← py_getitem response "accuracy";
  Ok (gender, accuracy).

(** The body of the loop of [get_data] on citing DOI number [n]. *)
Definition get_data_body (n : nat) (citing_doi : json) (df : DataFrame)
    : result DataFrame :=
  '(fa_name, la_name) ← names_from_xref citing_doi;
  '(fa_gender, fa_accuracy) ← name_to_gender fa_name;
  '(la_gender, la_accuracy) ← name_to_gender la_name;
  let df := df_at_set n "first_author_name" (JStr fa_name) df in
  let df := df_at_set n "first_author_gender" fa_gender df in
  let df := df_at_set n "first_author_gender_accuracy" fa_accuracy df in
  let df := df_at_set n "last_author_name" (JStr la_name) df in
  let df := df_at_set n "last_author_gender" la_gender df in
  let df := df_at_set n "last_author_gender_accuracy" la_accuracy df in
  Ok df.

Fixpoint get_data_loop (todo : list (nat * json)) (df : DataFrame)
    : result DataFrame :=
  match todo with
  | [] => Ok df
  | (n, citing_doi) :: todo' =>
      df ← get_data_body n citing_doi df;
      get_data_loop todo' df
  end.

Definition get_data (cited_doi : string) : result DataFrame :=
  citing ← get_citing_dois cited_doi;
  let df := df_from_column "doi" citing in
  if 0 <? length df then get_data_loop (enumerate (df_column "doi" df)) df
  else Ok df.

(** The loop at the end of the module, over [cited_dois.items()]. *)
Fixpoint accumulate (items : list (string * string)) (citing_papers : DataFrame)
    : result DataFrame :=
  match items with
  | [] => Ok citing_papers
  | (cited_entity, doi) :: items' =>
      df ← get_data doi;
      let df := df_assign "cited_entity" (JStr cited_entity) df in
      let df := df_assign "cited_doi" (JStr doi) df in
      accumulate items' (df_append citing_papers df)
  end.

End make_dataset.

Definition cited_dois : list (string * string) :=
  [ ("paper", "10.1038/s41593-020-0658-y");
    ("preprint", "10.1101/2020.01.03.894378");
    ("code", "10.5281/zenodo.3672109") ].

(** The table the script saves. *)
Definition citing_papers (sv : Services) : result DataFrame :=
  accumulate sv cited_dois [].

(** ** Notions the statements below are phrased with *)

(** Every character of [s] is whitespace. *)
Fixpoint blank (s : string) : bool :=
  match s with
  | EmptyString => true
  | String c s' => is_space c && blank s'
  end.

(** No character of [s] is whitespace. *)
Fixpoint solid (s : string) : bool :=
  match s with
  | EmptyString => true
  | String c s' => negb (is_space c) && solid s'
  end.

(** [s] is empty or begins with whitespace. *)
Definition at_break (s : string) : bool :=
  match s with
  | EmptyString => true
  | String c _ => is_space c
  end.

(** [t] is the first whitespace-delimited token of [s]: [s] is some
    whitespace, then [t], which is not empty and holds no whitespace, then
    the end of [s] or more whitespace. *)
Definition first_token (s t : string) : Prop :=
  ∃ ws rest, s = ws +:+ t +:+ rest ∧ blank ws = true ∧ t ≠ ""
             ∧ solid t = true ∧ at_break rest = true.

(** Every character of [s] is a period or whitespace. *)
Fixpoint only_periods_and_spaces (s : string) : bool :=
  match s with
  | EmptyString => true
  | String c s' => (Ascii.eqb c "." || is_space c) && only_periods_and_spaces s'
  end.

(** The six cells [get_data_body] writes into the row of a citing DOI. *)
Definition with_authors (fa_name : string) (fa : json * json)
    (la_name : string) (la : json * json) (r : gmap string json) : gmap string json :=
  <["last_author_gender_accuracy" := la.2]>
    (<["last_author_gender" := la.1]>
       (<["last_author_name" := JStr la_name]>
          (<["first_author_gender_accuracy" := fa.2]>
             (<["first_author_gender" := fa.1]>
                (<["first_author_name" := JStr fa_name]> r))))).

(** The row of [get_data] for one citing DOI: the three look-ups of the
    loop body, in their order, and the cells written from them. *)
Definition citing_row (sv : Services) (citing_doi : json) : result (gmap string json) :=
  '(fa_name, la_name) ← names_from_xref sv citing_doi;
  fa ← name_to_gender sv fa_name;
  la ← name_to_gender sv la_name;
  Ok (with_authors fa_name fa la_name la {["doi" := citing_doi]}).

(** The two source columns the accumulation loop adds to a frame. *)
Definition tagged (cited_entity doi : string) (df : DataFrame) : DataFrame :=
  df_assign "cited_doi" (JStr doi) (df_assign "cited_entity" (JStr cited_entity) df).

(** The rows one cited work contributes to the table: a row for each citing
    DOI the citation index lists, in its order, tagged with the work. *)
Definition cited_rows (sv : Services) (item : string * string) : result DataFrame :=
  tagged item.1 item.2 <$>
    (citing ← get_citing_dois sv item.2; mapM (citing_row sv) citing).

(** A look-up of the loop body of [get_data] fails on [citing_doi]: the
    author resolution, or the gender inference for one of its two names. *)
Definition lookup_fails (sv : Services) (citing_doi : json) : Prop :=
  (∃ e, names_from_xref sv citing_doi = Error e)
  ∨ ∃ fa_name la_name e,
      names_from_xref sv citing_doi = Ok (fa_name, la_name)
      ∧ (name_to_gender sv fa_name = Error e ∨ name_to_gender sv la_name = Error e).

(** What identifies a record of the table: citing DOI, cited entity and
    cited DOI. *)
Definition record_key (r : gmap string json) : option json * option json * option json :=
  (r !! "doi", r !! "cited_entity", r !! "cited_doi").

(** The key of the record of citing DOI [c] found under cited work [item]. *)
Definition discovered (item : string * string) (c : json)
    : option json * option json * option json :=
  (Some c, Some (JStr item.1), Some (JStr item.2)).

(** The pair the claim on duplicates counts records by: citing DOI and
    cited DOI. *)
Definition citing_cited (r : gmap string json) : option json * option json :=
  (r !! "doi", r !! "cited_doi").

(** The rows of a run that returned, none for a run that raised. *)
Definition rows_of (run : result DataFrame) : DataFrame :=
  match run with Ok df => df | Error _ => [] end.

(** The keys of a run in the order of discovery: the cited works in their
    order, and under each its citing DOIs in the order of [citing]. *)
Definition discovery_order (cited : list (string * string)) (citing : list (list json))
    : list (option json * option json * option json) :=
  concat (zip_with (λ item cs, discovered item <$> cs) cited citing).

Definition citations_url (cited_doi : string) : string :=
  "https://opencitations.net/index/coci/api/v1/citations/" +:+ cited_doi.

Definition gender_url (sv : Services) (name : string) : string :=
  "https://gender-api.com/get?key=" +:+ GENDER_API_KEY sv +:+ "&name=" +:+ name.

(** The metadata index answers [doi] with at least one matching work, and
    [item] is the first of the works it lists. *)
Definition matched_work (sv : Services) (doi : json) (item : list (string * json)) : Prop :=
  ∃ works message total items,
    crossref_works sv doi = Ok works
    ∧ py_getitem works "message" = Ok message
    ∧ py_getitem message "total-results" = Ok total
    ∧ py_gt_zero total = Ok true
    ∧ py_getitem message "items" = Ok items
    ∧ py_getitem_int items 0 = Ok (JObj item).

(** The metadata index answers [doi] with zero matching works. *)
Definition no_matching_work (sv : Services) (doi : json) : Prop :=
  ∃ works message,
    crossref_works sv doi = Ok works
    ∧ py_getitem works "message" = Ok message
    ∧ py_getitem message "total-results" = Ok (JNum 0).

(** [item] is a JSON object whose field [k] holds [v]. *)
Definition has_field (k : string) (v item : json) : Prop :=
  ∃ fields, item = JObj fields ∧ dict_get k fields = Some v.

(** ** Services with canned answers, for the examples *)

Module Canned.

(** A service that knows the listed requests and fails on any other. *)
Definition http (answers : list (string * json)) (url : string) : result json :=
  of_option RequestException (dict_get url answers).

Definition crossref (answers : list (string * json)) (doi : json) : result json :=
  match doi with
  | JStr s => of_option RequestException (dict_get s answers)
  | _ => Error RequestException
  end.

(** A Crossref answer with one matching work. *)
Definition one_work (item : list (string * json)) : json :=
  JObj [("message", JObj [("total-results", JNum 1); ("items", JArr [JObj item])])].

(** A Crossref answer with no matching work. *)
Definition no_work : json :=
  JObj [("message", JObj [("total-results", JNum 0); ("items", JArr [])])].

Definition author (given family : string) : json :=
  JObj [("given", JStr given); ("family", JStr family);
        ("sequence", JStr "additional"); ("affiliation", JArr [])].

Definition guess (gender : string) (accuracy : Z) : json :=
  JObj [("gender", JStr gender); ("accuracy", JNum accuracy)].

Definition citing (dois : list string) : json :=
  JArr ((λ d, JObj [("citing", JStr d); ("cited", JStr "x")]) <$> dois).

Definition gender_answers : list (string * json) :=
  [ ("https://gender-api.com/get?key=k&name=Jane", guess "female" 98);
    ("https://gender-api.com/get?key=k&name=J", guess "male" 61);
    ("https://gender-api.com/get?key=k&name=", guess "unknown" 0) ].

Definition work_A : list (string * json) :=
  [("DOI", JStr "10.0/A");
   ("author", JArr [author "Jane A." "Doe"; author "J. D." "Roe"])].
Definition work_B : list (string * json) := [("DOI", JStr "10.0/B")].
Definition work_C : list (string * json) :=
  [("DOI", JStr "10.0/C"); ("author", JArr [author "Jane" "Doe"])].
Definition work_E : list (string * json) :=
  [("DOI", JStr "10.0/E"); ("author", JArr [])].
Definition work_P : list (string * json) :=
  [("DOI", JStr "10.0/P");
   ("author", JArr [JObj [("given", JStr ". ."); ("family", JStr "Poe")]])].

(** Two papers cite the paper, one of them also cites the preprint,
    nothing cites the code. *)
Definition plain : Services := {|
  requests_get_json := http
    ([ (citations_url "10.1038/s41593-020-0658-y", citing ["10.0/A"; "10.0/B"]);
       (citations_url "10.1101/2020.01.03.894378", citing ["10.0/A"]);
       (citations_url "10.5281/zenodo.3672109", JArr []) ] ++ gender_answers);
  crossref_works := crossref
    [ ("10.0/A", one_work work_A); ("10.0/B", one_work work_B);
      ("10.0/C", one_work work_C) ];
  GENDER_API_KEY := "k" |}.

(** Crossref has no work for 10.0/Z, has a work with an empty author
    list for 10.0/E, and a work whose only author has a given name of
    periods for 10.0/P. *)
Definition sparse : Services := {|
  requests_get_json := http gender_answers;
  crossref_works := crossref
    [ ("10.0/Z", no_work); ("10.0/E", one_work work_E);
      ("10.0/P", one_work work_P) ];
  GENDER_API_KEY := "k" |}.

(** As [plain], but Crossref cannot be reached for 10.0/A. *)
Definition unreachable : Services := {|
  requests_get_json := requests_get_json plain;
  crossref_works := crossref
    [ ("10.0/B", one_work work_B) ];
  GENDER_API_KEY := "k" |}.

(** The citation index lists 10.0/B twice among the papers citing the
    paper. *)
Definition repeating : Services := {|
  requests_get_json := http
    ([ (citations_url "10.1038/s41593-020-0658-y", citing ["10.0/B"; "10.0/B"]);
       (citations_url "10.1101/2020.01.03.894378", JArr []);
       (citations_url "10.5281/zenodo.3672109", JArr []) ] ++ gender_answers);
  crossref_works := crossref_works plain;
  GENDER_API_KEY := "k" |}.

(** The gender service answers the empty name with an error message. *)
Definition nameless : Services := {|
  requests_get_json := http
    [ ("https://gender-api.com/get?key=k&name=",
       JObj [("errno", JNum 10); ("errmsg", JStr "name not set")]) ];
  crossref_works := crossref [];
  GENDER_API_KEY := "k" |}.

(** The gender service answers every request with a gender and no
    accuracy. *)
Definition unsure : Services := {|
  requests_get_json := λ _, Ok (JObj [("gender", JStr "unknown")]);
  crossref_works := crossref [];
  GENDER_API_KEY := "k" |}.

(** The gender service answers every request with an empty array. *)
Definition listing : Services := {|
  requests_get_json := λ _, Ok (JArr []);
  crossref_works := crossref [];
  GENDER_API_KEY := "k" |}.

End Canned.

(** ** Notions for the further properties *)

(** [c] is a period or whitespace, what [get_name_from_author_dict] cuts a
    given name at. *)
Definition is_separator (c : ascii) : bool := Ascii.eqb c "." || is_space c.

(** No character of [s] is a period or whitespace. *)
Fixpoint no_separator (s : string) : bool :=
  match s with
  | EmptyString => true
  | String c s' => negb (is_separator c) && no_separator s'
  end.

(** [s] is empty or begins with a period or whitespace. *)
Definition at_separator (s : string) : bool :=
  match s with
  | EmptyString => true
  | String c _ => is_separator c
  end.

(** [t] is the first run of characters of [given] that are neither periods
    nor whitespace, taken as long as it goes. *)
Definition first_name_of (given t : string) : Prop :=
  ∃ pre rest, given = pre +:+ t +:+ rest
              ∧ only_periods_and_spaces pre = true ∧ t ≠ ""
              ∧ no_separator t = true ∧ at_separator rest = true.

(** The columns of the saved table. *)
Definition table_columns : gset string :=
  list_to_set
    [ "doi"; "first_author_name"; "first_author_gender";
      "first_author_gender_accuracy"; "last_author_name"; "last_author_gender";
      "last_author_gender_accuracy"; "cited_entity"; "cited_doi" ].

(** ** The percentages of the diversity statements
       ([src/visualization/visualize_manual_data.py]) *)

Module Visualize.

(** A [dict] with str keys and values of any kind, in insertion order. *)
Fixpoint dict_lookup {A} (k : string) (d : list (string * A)) : option A :=
  match d with
  | [] => None
  | (k', v) :: d' => if String.eqb k k' then Some v else dict_lookup k d'
  end.

(** [d[k] = v]: the value of a key that is there is replaced where it
    stands, a new key goes to the end. *)
Fixpoint dict_store {A} (k : string) (v : A) (d : list (string * A)) : list (string * A) :=
  match d with
  | [] => [(k, v)]
  | (k', v') :: d' =>
      if String.eqb k k' then (k, v) :: d' else (k', v') :: dict_store k v d'
  end.

(** [dict(pairs)] *)
Definition py_dict {A} (pairs : list (string * A)) : list (string * A) :=
  foldl (λ d kv, dict_store kv.1 kv.2 d) [] pairs.

Definition possible_labels : list (nat * list string) :=
  [ (4, ["mm"; "mw"; "wm"; "ww"]);
    (5, ["mm"; "mw"; "wm"; "ww"; "unknown"]);
    (6, ["mm"; "mw"; "wm"; "ww"; "nonbinary"; "unknown"]);
    (8, ["mm"; "mw"; "wm"; "ww"; "rel_mm"; "rel_mw"; "rel_wm"; "rel_ww"]);
    (9, ["mm"; "mw"; "wm"; "ww"; "rel_mm"; "rel_mw"; "rel_wm"; "rel_ww"]);
    (10, ["mm"; "mw"; "wm"; "ww"; "unknown";
          "rel_mm"; "rel_mw"; "rel_wm"; "rel_ww"; "rel_unknown"]);
    (11, ["mm"; "mw"; "wm"; "ww"; "nonbinary"; "unknown";
          "rel_mm"; "rel_mw"; "rel_wm"; "rel_ww"; "rel_unknown"]) ].

(** [possible_labels[n]] *)
Fixpoint labels_lookup (n : nat) (d : list (nat * list string)) : option (list string) :=
  match d with
  | [] => None
  | (n', labels) :: d' => if Nat.eqb n n' then Some labels else labels_lookup n d'
  end.

(** The dictionary the loop over [df["ds_text"]] makes of the percentages
    [ints] it has read out of one text: its [if len(ints) > 0] with both
    branches. *)
Definition percentages_dict (ints : list float) : result (list (string * float)) :=
  if 0 <? length ints then
    labels ← of_option KeyError (labels_lookup (length ints) possible_labels);
    Ok (py_dict (zip labels ints))
  else Ok [].

(** [lists[key].append(v)] *)
Fixpoint list_append_at (key : string) (v : float) (lists : list (string * list float))
    : result (list (string * list float)) :=
  match lists with
  | [] => Error KeyError
  | (k, l) :: lists' =>
      if String.eqb key k then Ok ((k, l ++ [v]) :: lists')
      else rest ← list_append_at key v lists'; Ok ((k, l) :: rest)
  end.

(** The [for key in lists_percents.keys()] loop of [get_percentages_list].
    Python looks [lists_percents[key]] up before [d[key]]; both raise
    [KeyError], so which comes first does not show in the result. *)
Fixpoint get_percentages_keys (keys : list string) (d : list (string * float))
    (lists_percents : list (string * list float)) : result (list (string * list float)) :=
  match keys with
  | [] => Ok lists_percents
  | key :: keys' =>
      v ← of_option KeyError (dict_lookup key d);
      lists_percents ← list_append_at key v lists_percents;
      get_percentages_keys keys' d lists_percents
  end.

(** The [for d in df["percentages"]] loop of [get_percentages_list]. *)
Fixpoint get_percentages_loop (percentages : list (list (string * float)))
    (lists_percents : list (string * list float)) : result (list (string * list float)) :=
  match percentages with
  | [] => Ok lists_percents
  | d :: percentages' =>
      if 0 <? length d then
        lists_percents ← get_percentages_keys lists_percents.*1 d lists_percents;
        get_percentages_loop percentages' lists_percents
      else get_percentages_loop percentages' lists_percents
  end.

(** [get_percentages_list(df)], of the column [df["percentages"]], which
    holds a dict in every row. *)
Definition get_percentages_list (percentages : list (list (string * float)))
    : result (list (string * list float)) :=
  get_percentages_loop percentages [("mm", []); ("wm", []); ("mw", []); ("ww", [])].

Definition expected_percentages : list (string * float) :=
  [("mm", 58.4%float); ("wm", 25.5%float); ("mw", 9.4%float); ("ww", 6.7%float)].

(** The [for key in lists_percent_diffs.keys()] loop of
    [get_percentage_differences_lists]. *)
Fixpoint get_percentage_differences_keys (keys : list string) (d : list (string * float))
    (lists_percent_diffs : list (string * list float))
    : result (list (string * list float)) :=
  match keys with
  | [] => Ok lists_percent_diffs
  | key :: keys' =>
      v ← of_option KeyError (dict_lookup key d);
      expected ← of_option KeyError (dict_lookup key expected_percentages);
      let diff := PrimFloat.sub v expected in
      lists_percent_diffs ← list_append_at key diff lists_percent_diffs;
      get_percentage_differences_keys keys' d lists_percent_diffs
  end.

(** The [for d in df["percentages"]] loop of
    [get_percentage_differences_lists]. *)
Fixpoint get_percentage_differences_loop (percentages : list (list (string * float)))
    (lists_percent_diffs : list (string * list float))
    : result (list (string * list float)) :=
  match percentages with
  | [] => Ok lists_percent_diffs
  | d :: percentages' =>
      if 0 <? length d then
        lists_percent_diffs ←
          get_percentage_differences_keys lists_percent_diffs.*1 d lists_percent_diffs;
        get_percentage_differences_loop percentages' lists_percent_diffs
      else get_percentage_differences_loop percentages' lists_percent_diffs
  end.

Definition get_percentage_differences_lists (percentages : list (list (string * float)))
    : result (list (string * list float)) :=
  get_percentage_differences_loop percentages
    [("mm", []); ("wm", []); ("mw", []); ("ww", [])].

(** The values the dictionaries of [percentages] hold under [key], in the
    order of the dictionaries. *)
Definition reported (key : string) (percentages : list (list (string * float)))
    : list float :=
  omap (dict_lookup key) percentages.

(** [d] is empty or holds the four percentages that are plotted. *)
Definition plottable (d : list (string * float)) : Prop :=
  d = [] ∨ (is_Some (dict_lookup "mm" d) ∧ is_Some (dict_lookup "wm" d)
            ∧ is_Some (dict_lookup "mw" d) ∧ is_Some (dict_lookup "ww" d)).

(** The lists of [get_percentages_list] with the benchmark of its key
    subtracted from every value. *)
Definition relative_to_expected (lists : list (string * list float))
    : list (string * list float) :=
  (λ kl : string * list float,
     (kl.1, (λ v, match dict_lookup kl.1 expected_percentages with
                  | Some expected => PrimFloat.sub v expected
                  | None => v
                  end) <$> kl.2)) <$> lists.

(** The numbers of percentages [possible_labels] has labels for, and none
    at all. *)
Definition labelled_counts : list nat := [0; 4; 5; 6; 8; 9; 10; 11].

End Visualize.

(** * Properties *)

(** ** The error monad *)

Lemma bind_Ok {A B} (f : A → result B) (r : result A) (b : B) :
  r ≫= f = Ok b ↔ ∃ a, r = Ok a ∧ f a = Ok b.
Proof.
  destruct r as [a|e]; simpl.
  - split; [eauto | by intros (? & [= ->] & ?)].
  - split; [done | by intros (? & ? & ?)].
Qed.

Lemma bind_Ok_l {A B} (f : A → result B) (a : A) : Ok a ≫= f = f a.
Proof. reflexivity. Qed.

(** Replace a call by its known result and continue after it. *)
Ltac run H := rewrite ?H, ?bind_Ok_l; cbv beta iota.

Lemma fmap_Ok {A B} (f : A → B) (r : result A) (b : B) :
  f <$> r = Ok b ↔ ∃ a, r = Ok a ∧ b = f a.
Proof.
  destruct r as [a|e]; simpl.
  - split; [intros [= <-]; eauto | by intros (? & [= ->] & ->)].
  - split; [done | by intros (? & ? & ?)].
Qed.

Lemma mapM_Ok {A B} (f : A → result B) (l : list A) (k : list B) :
  mapM f l = Ok k ↔ Forall2 (λ x y, f x = Ok y) l k.
Proof.
  revert k. induction l as [|x l IH]; intros k; simpl.
  - split; [intros [= <-]; constructor | by inversion 1].
  - split.
    + intros (y & Hy & (k' & Hk' & [= <-])%bind_Ok)%bind_Ok.
      constructor; [done | by apply IH].
    + inversion 1 as [|? y ? k' Hy Hk']; subst.
      rewrite Hy; simpl. apply IH in Hk'. by rewrite Hk'.
Qed.

Lemma mapM_Error {A B} (f : A → result B) (l : list A) (x : A) (e : exn) :
  x ∈ l → f x = Error e → ∃ e', mapM f l = Error e'.
Proof.
  intros Hx Hfx. induction l as [|y l IH]; [by apply elem_of_nil in Hx |].
  simpl. destruct (f y) as [b|e1] eqn:Hy; [| by eexists].
  apply elem_of_cons in Hx as [-> | Hx]; [congruence |].
  destruct (IH Hx) as [e' ->]. by eexists.
Qed.

(** ** Dictionaries *)

Lemma dict_get_keys (k : string) (d : list (string * json)) :
  k ∈ dict_keys d ↔ is_Some (dict_get k d).
Proof.
  unfold dict_keys. induction d as [|[k' v] d IH]; simpl.
  - rewrite elem_of_nil. split; [done | by intros [? ?]].
  - rewrite elem_of_cons, IH.
    destruct (String.eqb_spec k k') as [-> | Hne]; [split; [by eauto | by left] |].
    split; [by intros [? | ?] | by right].
Qed.

Lemma dict_get_None_keys (k : string) (d : list (string * json)) :
  dict_get k d = None ↔ k ∉ dict_keys d.
Proof. rewrite dict_get_keys, eq_None_not_Some. done. Qed.

(** ** Splitting at whitespace *)

Lemma app_String (c : ascii) (s1 s2 : string) :
  String c s1 +:+ s2 = String c (s1 +:+ s2).
Proof. reflexivity. Qed.

Lemma app_empty (s : string) : "" +:+ s = s.
Proof. reflexivity. Qed.

Lemma split_String (c : ascii) (s : string) :
  split (String c s) =
    if is_space c then split s
    else match s with
         | EmptyString => [String c EmptyString]
         | String c' _ =>
             if is_space c' then String c EmptyString :: split s
             else match split s with
                  | t :: ts => String c t :: ts
                  | [] => [String c EmptyString]
                  end
         end.
Proof. reflexivity. Qed.

Lemma split_blank (s : string) : blank s = true → split s = [].
Proof.
  induction s as [|c s IH]; [done |].
  rewrite split_String. simpl. intros [-> Hs]%andb_prop. auto.
Qed.

Lemma split_skip (ws s : string) : blank ws = true → split (ws +:+ s) = split s.
Proof.
  induction ws as [|c ws IH]; [done |].
  rewrite app_String, split_String. simpl. intros [-> Hs]%andb_prop. auto.
Qed.

Lemma split_solid_start (c : ascii) (s : string) :
  is_space c = false → split (String c s) ≠ [].
Proof.
  intros Hc. rewrite split_String, Hc.
  destruct s as [|c' s]; [done |].
  destruct (is_space c'); [done |]. by destruct (split (String c' s)).
Qed.

Lemma split_token (t rest : string) :
  t ≠ "" → solid t = true → at_break rest = true →
  split (t +:+ rest) = t :: split rest.
Proof.
  intros Hne Ht Hrest. induction t as [|c t IH]; [done |].
  simpl in Ht. apply andb_prop in Ht as [Hc%negb_true_iff Ht].
  rewrite app_String, split_String, Hc. destruct t as [|c' t].
  - rewrite app_empty.
    destruct rest as [|c' rest]; [done |]. simpl in Hrest. by rewrite Hrest.
  - specialize (IH ltac:(done) Ht).
    pose proof Ht as [Hc'%negb_true_iff _]%andb_prop.
    rewrite IH, app_String, Hc'. done.
Qed.

Lemma split_first_token (s t : string) :
  first_token s t → ∃ ts, split s = t :: ts.
Proof.
  intros (ws & rest & -> & Hws & Hne & Ht & Hrest).
  rewrite split_skip, split_token by done. eauto.
Qed.

Lemma first_token_solid_start (c : ascii) (s t : string) :
  is_space c = false → first_token (String c s) t →
  ∃ t' rest, t = String c t' ∧ s = t' +:+ rest ∧ solid t' = true
             ∧ at_break rest = true.
Proof.
  intros Hc (ws & rest & Heq & Hws & Hne & Ht & Hrest).
  destruct ws as [|c' ws].
  - rewrite app_empty in Heq. destruct t as [|c' t]; [done |].
    rewrite app_String in Heq. injection Heq as <- ->.
    simpl in Ht. apply andb_prop in Ht as [_ Ht]. by exists t, rest.
  - rewrite app_String in Heq. injection Heq as <- _.
    simpl in Hws. rewrite Hc in Hws. done.
Qed.

Lemma first_token_split (s t : string) (ts : list string) :
  split s = t :: ts → first_token s t.
Proof.
  revert t ts. induction s as [|c s IH]; intros t ts; [done |].
  rewrite split_String. destruct (is_space c) eqn:Hc.
  - intros (ws & rest & -> & ? & ? & ? & ?)%IH.
    exists (String c ws), rest. rewrite app_String. simpl. by rewrite Hc.
  - destruct s as [|c' s].
    + intros [= <- <-]. exists "", "". simpl. by rewrite Hc.
    + destruct (is_space c') eqn:Hc'.
      * intros [= <- <-]. exists "", (String c' s). simpl. by rewrite Hc, Hc'.
      * destruct (split (String c' s)) as [|t0 ts0] eqn:Hs.
        { by apply split_solid_start in Hs. }
        intros [= <- <-].
        destruct (first_token_solid_start c' s t0 Hc' (IH _ _ eq_refl))
          as (t' & rest & -> & -> & Ht' & Hrest).
        exists "", rest. rewrite app_empty, !app_String.
        split; [done |]. simpl. by rewrite Hc, Hc', Ht'.
Qed.

Lemma split_lookup_first (s t : string) :
  split s !! 0 = Some t ↔ first_token s t.
Proof.
  split.
  - destruct (split s) as [|t0 ts] eqn:Hs; [done |].
    intros [= ->]. by eapply first_token_split.
  - intros [ts ->]%split_first_token. done.
Qed.

Lemma replace_periods_blank (s : string) :
  blank (replace_periods s) = only_periods_and_spaces s.
Proof.
  induction s as [|c s IH]; [done |]. simpl. rewrite IH. f_equal.
  destruct (Ascii.eqb c ".") eqn:Hc; [done |]. done.
Qed.

Lemma blank_no_token (s t : string) : blank s = true → ¬ first_token s t.
Proof.
  intros Hs [ts Ht]%split_first_token. by rewrite split_blank in Ht.
Qed.

Lemma no_token_split (s : string) :
  (∀ t, ¬ first_token s t) ↔ split s = [].
Proof.
  split.
  - intros Hno. destruct (split s) as [|t ts] eqn:Hs; [done |].
    by apply first_token_split, Hno in Hs.
  - intros Hs t [ts Ht]%split_first_token. congruence.
Qed.

Lemma only_periods_and_spaces_no_token (s t : string) :
  only_periods_and_spaces s = true → ¬ first_token (replace_periods s) t.
Proof. rewrite <- replace_periods_blank. apply blank_no_token. Qed.

(** ** [get_name_from_author_dict] *)

Lemma get_name_absent (author_dict : list (string * json)) :
  dict_get "given" author_dict = None →
  get_name_from_author_dict (JObj author_dict) = Ok "".
Proof.
  intros Hg%dict_get_None_keys. unfold get_name_from_author_dict. simpl.
  by rewrite bool_decide_eq_false_2.
Qed.

Lemma get_name_present (author_dict : list (string * json)) (given : json) :
  dict_get "given" author_dict = Some given →
  get_name_from_author_dict (JObj author_dict) =
    replaced ← py_replace_periods given;
    of_option IndexError (split replaced !! 0).
Proof.
  intros Hg. unfold get_name_from_author_dict. simpl.
  rewrite bool_decide_eq_true_2 by (apply dict_get_keys; eauto).
  simpl. by rewrite Hg.
Qed.

(** C5, as amended: when the author entry has no given-name field the
    result is the empty string; when its given name is a string that, with
    every period replaced by a space, has a first whitespace-delimited
    token, the result is that token. *)
Theorem get_name_from_author_dict_first_token (author_dict : list (string * json)) :
  (dict_get "given" author_dict = None →
     get_name_from_author_dict (JObj author_dict) = Ok "")
  ∧ (∀ given t,
       dict_get "given" author_dict = Some (JStr given) →
       first_token (replace_periods given) t →
       get_name_from_author_dict (JObj author_dict) = Ok t).
Proof.
  split; [apply get_name_absent |].
  intros given t Hg Ht. rewrite (get_name_present _ _ Hg). simpl.
  apply split_lookup_first in Ht. by rewrite Ht.
Qed.

(** The two examples of the specification: the given name "J. D." yields
    "J", an entry without a given name yields the empty string. *)
Lemma get_name_from_author_dict_first_token_examples :
  get_name_from_author_dict (JObj [("given", JStr "J. D."); ("family", JStr "Doe")]) = Ok "J"
  ∧ get_name_from_author_dict (JObj []) = Ok "".
Proof.
  split.
  - apply (proj2 (get_name_from_author_dict_first_token
                    [("given", JStr "J. D."); ("family", JStr "Doe")]) "J. D." "J").
    + reflexivity.
    + exists "", "  D ".
      split; [reflexivity |]. split; [reflexivity |]. split; [discriminate |].
      split; reflexivity.
  - apply (proj1 (get_name_from_author_dict_first_token [])). reflexivity.
Defined.

(** C5, as stated, fails where the given name is present and has no token:
    the empty given name raises. *)
Lemma get_name_from_author_dict_empty_given :
  dict_get "given" [("given", JStr ""); ("family", JStr "Doe")] = Some (JStr "")
  ∧ get_name_from_author_dict (JObj [("given", JStr ""); ("family", JStr "Doe")])
    = Error IndexError.
Proof. split; reflexivity. Qed.

(** C9: a given name that is present and, with its periods replaced, has
    no token (so the empty string and any string of periods and whitespace)
    raises [IndexError]; and a string is returned only when the given name is
    absent, or is a string with a first token, which is then the result. *)
Theorem get_name_from_author_dict_partial (author_dict : list (string * json)) :
  (∀ given,
     dict_get "given" author_dict = Some (JStr given) →
     (∀ t, ¬ first_token (replace_periods given) t) →
     get_name_from_author_dict (JObj author_dict) = Error IndexError)
  ∧ (∀ given,
       dict_get "given" author_dict = Some (JStr given) →
       only_periods_and_spaces given = true →
       get_name_from_author_dict (JObj author_dict) = Error IndexError)
  ∧ (∀ name,
       get_name_from_author_dict (JObj author_dict) = Ok name →
       (dict_get "given" author_dict = None ∧ name = "")
       ∨ ∃ given, dict_get "given" author_dict = Some (JStr given)
                  ∧ first_token (replace_periods given) name).
Proof.
  assert (∀ given,
     dict_get "given" author_dict = Some (JStr given) →
     (∀ t, ¬ first_token (replace_periods given) t) →
     get_name_from_author_dict (JObj author_dict) = Error IndexError) as Hraise.
  { intros given Hg Hno. rewrite (get_name_present _ _ Hg). simpl.
    apply no_token_split in Hno. by rewrite Hno. }
  split; [done |]. split.
  - intros given Hg Hps. apply (Hraise given Hg).
    intros t. by apply only_periods_and_spaces_no_token.
  - intros name. destruct (dict_get "given" author_dict) as [given|] eqn:Hg.
    + rewrite (get_name_present _ _ Hg).
      destruct given as [| | |given| |]; try done. simpl.
      destruct (split (replace_periods given) !! 0) as [t|] eqn:Ht; [|done].
      intros [= <-]. right. exists given. by rewrite <- split_lookup_first.
    + rewrite (get_name_absent _ Hg). intros [= <-]. by left.
Qed.

Lemma get_name_from_author_dict_partial_examples :
  get_name_from_author_dict (JObj [("given", JStr "")]) = Error IndexError
  ∧ get_name_from_author_dict (JObj [("given", JStr ". ."); ("family", JStr "Poe")])
    = Error IndexError
  ∧ ((dict_get "given" [("given", JStr "Jane Ann")] = None ∧ "Jane" = "")
     ∨ ∃ given, dict_get "given" [("given", JStr "Jane Ann")] = Some (JStr given)
                ∧ first_token (replace_periods given) "Jane").
Proof.
  split; [| split].
  - apply (proj1 (get_name_from_author_dict_partial [("given", JStr "")]) "").
    + reflexivity.
    + intros t. apply blank_no_token. reflexivity.
  - apply (proj1 (proj2 (get_name_from_author_dict_partial
                           [("given", JStr ". ."); ("family", JStr "Poe")])) ". .");
      reflexivity.
  - apply (proj2 (proj2 (get_name_from_author_dict_partial [("given", JStr "Jane Ann")]))).
    reflexivity.
Defined.

(** ** [get_citing_dois] *)

Lemma get_citing_dois_loop_mapM (items citing_dois : list json) :
  get_citing_dois_loop items citing_dois =
    (citing_dois ++.) <$> mapM (λ item, py_getitem item "citing") items.
Proof.
  revert citing_dois. induction items as [|item items IH]; intros acc; simpl.
  - by rewrite app_nil_r.
  - destruct (py_getitem item "citing") as [c|e]; simpl; [|done].
    rewrite IH. destruct (mapM _ items); simpl; [|done].
    by rewrite <- app_assoc.
Qed.

Lemma has_field_getitem (k : string) (v item : json) :
  has_field k v item → py_getitem item k = Ok v.
Proof. intros (fields & -> & Hv). simpl. by rewrite Hv. Qed.

Lemma get_citing_dois_array (sv : Services) (cited_doi : string) (items : list json) :
  requests_get_json sv (citations_url cited_doi) = Ok (JArr items) →
  get_citing_dois sv cited_doi = mapM (λ item, py_getitem item "citing") items.
Proof.
  intros Hget. unfold get_citing_dois, citations_url in *. rewrite Hget.
  destruct items as [|item items]; [done |].
  change (get_citing_dois_loop (item :: items) []
          = mapM (λ item, py_getitem item "citing") (item :: items)).
  rewrite get_citing_dois_loop_mapM. by destruct (mapM _ _).
Qed.

(** C6: when the citation index answers with an array of objects that each
    hold a [citing] field, the result is the sequence of those fields in the
    order of the array; for the empty array it is the empty sequence, and
    nothing is raised. *)
Theorem get_citing_dois_in_order (sv : Services) (cited_doi : string)
    (items citing : list json) :
  requests_get_json sv (citations_url cited_doi) = Ok (JArr items) →
  Forall2 (λ item c, has_field "citing" c item) items citing →
  get_citing_dois sv cited_doi = Ok citing
  ∧ (items = [] → get_citing_dois sv cited_doi = Ok []).
Proof.
  intros Hget Hitems. rewrite (get_citing_dois_array _ _ _ Hget). split.
  - apply mapM_Ok. eapply Forall2_impl; [done |].
    intros item c. apply has_field_getitem.
  - by intros ->.
Qed.

Lemma get_citing_dois_in_order_examples :
  get_citing_dois Canned.plain "10.1038/s41593-020-0658-y"
    = Ok [JStr "10.0/A"; JStr "10.0/B"]
  ∧ get_citing_dois Canned.plain "10.5281/zenodo.3672109" = Ok [].
Proof.
  split.
  - refine (proj1 (get_citing_dois_in_order Canned.plain "10.1038/s41593-020-0658-y"
                     _ _ _ _)).
    + reflexivity.
    + repeat constructor; eexists; split; reflexivity.
  - refine (proj2 (get_citing_dois_in_order Canned.plain "10.5281/zenodo.3672109"
                     [] [] _ _) _).
    + reflexivity.
    + constructor.
    + reflexivity.
Defined.

(** ** [names_from_xref] *)

Lemma names_from_xref_matched (sv : Services) (doi : json) (item : list (string * json)) :
  matched_work sv doi item →
  names_from_xref sv doi =
    if bool_decide ("author" ∈ dict_keys item) then
      authors ← py_getitem (JObj item) "author";
      author ← py_getitem_int authors 0;
      first_author ← get_name_from_author_dict author;
      authors ← py_getitem (JObj item) "author";
      author ← py_getitem_int authors (-1);
      last_author ← get_name_from_author_dict author;
      Ok (first_author, last_author)
    else Ok ("", "").
Proof.
  intros (works & message & total & items & Hw & Hm & Ht & Hgt & Hi & H0).
  unfold names_from_xref. run Hw. run Hm. run Ht. run Hgt. run Hm. run Hi.
  by run H0.
Qed.

Lemma py_getitem_int_first (l : list json) (x : json) :
  head l = Some x → py_getitem_int (JArr l) 0 = Ok x.
Proof. destruct l as [|y l]; [done |]. by intros [= ->]. Qed.

Lemma py_getitem_int_last (l : list json) (x : json) :
  last l = Some x → py_getitem_int (JArr l) (-1) = Ok x.
Proof.
  intros Hx. pose proof Hx as Hlen. rewrite last_lookup in Hlen.
  apply lookup_lt_Some in Hlen as Hlt.
  unfold py_getitem_int, py_index.
  replace (-1 <? 0)%Z with true by done.
  rewrite (proj2 (andb_true_iff _ _)) by (split; [apply Z.leb_le | apply Z.ltb_lt]; lia).
  simpl. replace (Z.to_nat (Z.of_nat (length l) + -1)) with (pred (length l)) by lia.
  by rewrite Hlen.
Qed.

(** C1, what the code does: when the metadata index reports zero matching
    works, neither name is assigned and the [return] raises. *)
Theorem names_from_xref_zero_results_unbound (sv : Services) (doi : json) :
  no_matching_work sv doi →
  names_from_xref sv doi = Error (UnboundLocalError "first_author").
Proof.
  intros (works & message & Hw & Hm & Ht).
  unfold names_from_xref. run Hw. run Hm. by run Ht.
Qed.

Lemma names_from_xref_zero_results_unbound_example :
  names_from_xref Canned.sparse (JStr "10.0/Z") = Error (UnboundLocalError "first_author").
Proof.
  apply (names_from_xref_zero_results_unbound Canned.sparse (JStr "10.0/Z")).
  eexists _, _. split; [reflexivity |]. split; reflexivity.
Defined.

Lemma names_from_xref_no_author_list (sv : Services) (doi : json)
    (item : list (string * json)) :
  matched_work sv doi item → dict_get "author" item = None →
  names_from_xref sv doi = Ok ("", "").
Proof.
  intros Hm Ha%dict_get_None_keys. rewrite (names_from_xref_matched _ _ _ Hm).
  by rewrite bool_decide_eq_false_2.
Qed.

Lemma names_from_xref_author_list (sv : Services) (doi : json)
    (item : list (string * json)) (authors : list json) (first final : json) :
  matched_work sv doi item →
  dict_get "author" item = Some (JArr authors) →
  head authors = Some first → last authors = Some final →
  names_from_xref sv doi =
    first_author ← get_name_from_author_dict first;
    last_author ← get_name_from_author_dict final;
    Ok (first_author, last_author).
Proof.
  intros Hm Ha Hfirst Hfinal. rewrite (names_from_xref_matched _ _ _ Hm).
  rewrite bool_decide_eq_true_2 by (apply dict_get_keys; eauto).
  assert (py_getitem (JObj item) "author" = Ok (JArr authors)) as Hget
    by (simpl; by rewrite Ha).
  run Hget. run (py_getitem_int_first _ _ Hfirst).
  destruct (get_name_from_author_dict first) as [first_author|e]; [|done].
  run Hget. by run (py_getitem_int_last _ _ Hfinal).
Qed.

(** C7, as amended: for a matched work without an author list both names
    are empty; for a matched work whose author list is not empty the result
    is made of the name of its first entry and the name of its last entry,
    in that order, each as [get_name_from_author_dict] derives it (and is an
    error when one of the two cannot be derived). *)
Theorem names_from_xref_first_and_last (sv : Services) (doi : json)
    (item : list (string * json)) :
  matched_work sv doi item →
  (dict_get "author" item = None → names_from_xref sv doi = Ok ("", ""))
  ∧ (∀ authors first final,
       dict_get "author" item = Some (JArr authors) →
       head authors = Some first → last authors = Some final →
       names_from_xref sv doi =
         first_author ← get_name_from_author_dict first;
         last_author ← get_name_from_author_dict final;
         Ok (first_author, last_author)).
Proof.
  intros Hm. split.
  - by apply names_from_xref_no_author_list.
  - intros authors first final. by apply names_from_xref_author_list.
Qed.

(** Read a matched work off the canned answer. *)
Ltac matched :=
  eexists _, _, _, _; repeat (split; [reflexivity |]); reflexivity.

Lemma names_from_xref_first_and_last_examples :
  names_from_xref Canned.plain (JStr "10.0/A") = Ok ("Jane", "J")
  ∧ names_from_xref Canned.plain (JStr "10.0/B") = Ok ("", "").
Proof.
  split.
  - apply (proj2 (names_from_xref_first_and_last Canned.plain (JStr "10.0/A")
                    Canned.work_A ltac:(matched))
             [Canned.author "Jane A." "Doe"; Canned.author "J. D." "Roe"]
             (Canned.author "Jane A." "Doe") (Canned.author "J. D." "Roe"));
      reflexivity.
  - apply (proj1 (names_from_xref_first_and_last Canned.plain (JStr "10.0/B")
                    Canned.work_B ltac:(matched)));
      reflexivity.
Defined.

(** C7, as stated, fails on a matched work that declares an empty author
    list: there is no first entry, and the call raises. *)
Lemma names_from_xref_empty_author_list :
  matched_work Canned.sparse (JStr "10.0/E") [("DOI", JStr "10.0/E"); ("author", JArr [])]
  ∧ names_from_xref Canned.sparse (JStr "10.0/E") = Error IndexError.
Proof.
  split; [| reflexivity].
  matched.
Qed.

(** C10, as amended: for a matched work whose author list has exactly one
    entry, both names are the one name [get_name_from_author_dict] derives
    from that entry (and the call is an error when none can be derived). *)
Theorem names_from_xref_single_author (sv : Services) (doi : json)
    (item : list (string * json)) (author : json) :
  matched_work sv doi item →
  dict_get "author" item = Some (JArr [author]) →
  names_from_xref sv doi =
    name ← get_name_from_author_dict author; Ok (name, name).
Proof.
  intros Hm Ha.
  rewrite (names_from_xref_author_list sv doi item [author] author author
             Hm Ha eq_refl eq_refl).
  by destruct (get_name_from_author_dict author).
Qed.

Lemma names_from_xref_single_author_example :
  names_from_xref Canned.plain (JStr "10.0/C") = Ok ("Jane", "Jane").
Proof.
  apply (names_from_xref_single_author Canned.plain (JStr "10.0/C") Canned.work_C
           (Canned.author "Jane" "Doe") ltac:(matched)).
  reflexivity.
Defined.

(** C10, as stated, fails when no name can be derived from the single
    entry: nothing is returned. *)
Lemma names_from_xref_single_author_of_periods :
  matched_work Canned.sparse (JStr "10.0/P")
    [("DOI", JStr "10.0/P");
     ("author", JArr [JObj [("given", JStr ". ."); ("family", JStr "Poe")]])]
  ∧ names_from_xref Canned.sparse (JStr "10.0/P") = Error IndexError.
Proof.
  split; [| reflexivity].
  matched.
Qed.

(** ** [name_to_gender] *)

(** C8, as amended: for the empty name the result is the gender and the
    accuracy of the service's answer to the request with the empty name,
    whatever they are (so ("unknown", 0) when the service answers so); and
    the call raises when the answer carries no gender or no accuracy:
    [KeyError] for an object without one of the two, [TypeError] for an
    answer that is not an object. *)
Theorem name_to_gender_empty_name (sv : Services) (response : json) :
  requests_get_json sv (gender_url sv "") = Ok response →
  (∀ gender accuracy,
     py_getitem response "gender" = Ok gender →
     py_getitem response "accuracy" = Ok accuracy →
     name_to_gender sv "" = Ok (gender, accuracy))
  ∧ (∀ fields,
       response = JObj fields →
       dict_get "gender" fields = None ∨ dict_get "accuracy" fields = None →
       name_to_gender sv "" = Error KeyError)
  ∧ ((∀ fields, response ≠ JObj fields) →
     name_to_gender sv "" = Error TypeError).
Proof.
  intros Hr. unfold name_to_gender. fold (gender_url sv ""). run Hr.
  split; [| split].
  - intros gender accuracy Hg Ha. run Hg. by run Ha.
  - intros fields -> Hmissing. simpl.
    destruct (dict_get "gender" fields) as [g|]; [| done].
    destruct Hmissing as [? | ->]; done.
  - intros Hshape. destruct response as [| | | | |fields]; try done.
    by destruct (Hshape fields).
Qed.

Lemma name_to_gender_empty_name_example :
  name_to_gender Canned.plain "" = Ok (JStr "unknown", JNum 0)
  ∧ name_to_gender Canned.unsure "" = Error KeyError
  ∧ name_to_gender Canned.listing "" = Error TypeError.
Proof.
  split; [| split].
  - apply (proj1 (name_to_gender_empty_name Canned.plain (Canned.guess "unknown" 0)
                    eq_refl));
      reflexivity.
  - apply (proj1 (proj2 (name_to_gender_empty_name Canned.unsure
                           (JObj [("gender", JStr "unknown")]) eq_refl))
             [("gender", JStr "unknown")]);
      [reflexivity | by right].
  - apply (proj2 (proj2 (name_to_gender_empty_name Canned.listing (JArr []) eq_refl))).
    discriminate.
Defined.

(** C8, as stated, fails: the function has no answer of its own for the empty
    name, and raises when the service's answer carries no gender. *)
Lemma name_to_gender_empty_name_unanswered :
  name_to_gender Canned.nameless "" = Error KeyError.
Proof. reflexivity. Qed.

(** ** [get_data] *)

Lemma df_at_set_insert (n : nat) (col : string) (v : json) (df : DataFrame)
    (r : gmap string json) :
  n < length df →
  df_at_set n col v (<[n := r]> df) = <[n := <[col := v]> r]> df.
Proof.
  intros Hn. unfold df_at_set.
  rewrite list_lookup_insert_eq by done. by rewrite list_insert_insert_eq.
Qed.

Lemma get_data_body_row (sv : Services) (n : nat) (citing_doi : json) (df : DataFrame) :
  df !! n = Some {["doi" := citing_doi]} →
  get_data_body sv n citing_doi df = (λ row, <[n := row]> df) <$> citing_row sv citing_doi.
Proof.
  intros Hrow. pose proof (lookup_lt_Some _ _ _ Hrow) as Hn.
  unfold get_data_body, citing_row.
  destruct (names_from_xref sv citing_doi) as [[fa_name la_name]|e]; [|done].
  rewrite !bind_Ok_l. cbv beta iota.
  destruct (name_to_gender sv fa_name) as [[fa_gender fa_accuracy]|e]; [|done].
  rewrite !bind_Ok_l. cbv beta iota.
  destruct (name_to_gender sv la_name) as [[la_gender la_accuracy]|e]; [|done].
  rewrite !bind_Ok_l. cbv beta iota zeta.
  rewrite <- (list_insert_id df n _ Hrow) at 1.
  rewrite !df_at_set_insert by done. done.
Qed.

Lemma get_data_loop_rows (sv : Services) (citing : list json) (done : DataFrame) :
  get_data_loop sv (imap (λ i d, (length done + i, d)) citing)
                   (done ++ df_from_column "doi" citing)
  = (done ++.) <$> mapM (citing_row sv) citing.
Proof.
  revert done. induction citing as [|d citing IH]; intros done.
  - simpl. by rewrite app_nil_r.
  - change (get_data_loop sv (imap (λ i d, (length done + i, d)) (d :: citing)) ?df)
      with (df' ← get_data_body sv (length done + 0) d df;
            get_data_loop sv (imap (λ i d, (length done + S i, d)) citing) df').
    change (df_from_column "doi" (d :: citing))
      with ({["doi" := d]} :: df_from_column "doi" citing).
    rewrite get_data_body_row by (by rewrite Nat.add_0_r, list_lookup_middle).
    change (mapM (citing_row sv) (d :: citing))
      with (row ← citing_row sv d; rows ← mapM (citing_row sv) citing; Ok (row :: rows)).
    destruct (citing_row sv d) as [row|e]; [|done].
    simpl. rewrite insert_app_r. simpl.
    rewrite (cons_middle row), app_assoc.
    rewrite (imap_ext _ (λ i d, (length (done ++ [row]) + i, d)))
      by (intros; rewrite length_app; simpl; f_equal; lia).
    rewrite IH. destruct (mapM (citing_row sv) citing); simpl; [|done].
    by rewrite <- app_assoc.
Qed.

Lemma df_column_from_column (col : string) (values : list json) :
  df_column col (df_from_column col values) = values.
Proof.
  unfold df_column, df_from_column. rewrite <- list_fmap_compose.
  rewrite <- (list_fmap_id values) at 2. apply list_fmap_ext.
  intros i v _. simpl. by rewrite lookup_singleton_eq.
Qed.

Lemma get_data_rows (sv : Services) (cited_doi : string) :
  get_data sv cited_doi =
    citing ← get_citing_dois sv cited_doi; mapM (citing_row sv) citing.
Proof.
  unfold get_data. destruct (get_citing_dois sv cited_doi) as [citing|e]; [|done].
  rewrite !bind_Ok_l. cbv beta zeta. rewrite df_column_from_column.
  destruct citing as [|d citing]; [done |].
  change (0 <? length (df_from_column "doi" (d :: citing))) with true.
  cbv iota. pose proof (get_data_loop_rows sv (d :: citing) []) as Hloop.
  rewrite app_nil_l in Hloop. unfold enumerate.
  etransitivity; [exact Hloop |].
  by destruct (mapM (citing_row sv) (d :: citing)).
Qed.

(** ** The accumulation loop *)

Lemma cited_rows_get_data (sv : Services) (cited_entity doi : string) :
  cited_rows sv (cited_entity, doi) = tagged cited_entity doi <$> get_data sv doi.
Proof. unfold cited_rows. by rewrite get_data_rows. Qed.

Lemma accumulate_rows (sv : Services) (cited : list (string * string)) (acc : DataFrame) :
  accumulate sv cited acc = (λ dfs, acc ++ concat dfs) <$> mapM (cited_rows sv) cited.
Proof.
  revert acc. induction cited as [|[cited_entity doi] cited IH]; intros acc.
  - simpl. by rewrite app_nil_r.
  - change (accumulate sv ((cited_entity, doi) :: cited) acc)
      with (df ← get_data sv doi;
            accumulate sv cited (df_append acc (tagged cited_entity doi df))).
    change (mapM (cited_rows sv) ((cited_entity, doi) :: cited))
      with (df ← cited_rows sv (cited_entity, doi);
            dfs ← mapM (cited_rows sv) cited; Ok (df :: dfs)).
    rewrite cited_rows_get_data.
    destruct (get_data sv doi) as [df|e]; [|done].
    simpl. rewrite IH. unfold df_append.
    destruct (mapM (cited_rows sv) cited); simpl; [|done].
    by rewrite <- app_assoc.
Qed.

Lemma citing_row_doi (sv : Services) (c : json) (row : gmap string json) :
  citing_row sv c = Ok row → row !! "doi" = Some c.
Proof.
  unfold citing_row.
  destruct (names_from_xref sv c) as [[fa_name la_name]|e]; [|done].
  rewrite bind_Ok_l. cbv beta iota.
  destruct (name_to_gender sv fa_name) as [fa|e]; [|done].
  destruct (name_to_gender sv la_name) as [la|e]; [|done].
  intros [= <-]. unfold with_authors.
  rewrite !lookup_insert_ne by done. apply lookup_singleton_eq.
Qed.

Lemma tagged_key (cited_entity doi : string) (row : gmap string json) :
  record_key (<["cited_doi" := JStr doi]> (<["cited_entity" := JStr cited_entity]> row))
  = (row !! "doi", Some (JStr cited_entity), Some (JStr doi)).
Proof.
  unfold record_key. rewrite lookup_insert_eq.
  rewrite (lookup_insert_ne _ "cited_doi" "cited_entity") by done.
  rewrite lookup_insert_eq. by rewrite !lookup_insert_ne by done.
Qed.

Lemma tagged_keys (sv : Services) (item : string * string) (cs : list json)
    (rows : DataFrame) :
  mapM (citing_row sv) cs = Ok rows →
  record_key <$> tagged item.1 item.2 rows = discovered item <$> cs.
Proof.
  intros Hrows%mapM_Ok. unfold tagged, df_assign.
  rewrite <- !list_fmap_compose.
  induction Hrows as [|c row cs rows Hrow _ IH]; [done |].
  rewrite !fmap_cons, IH. f_equal. simpl.
  by rewrite tagged_key, (citing_row_doi _ _ _ Hrow).
Qed.

Lemma cited_rows_Ok (sv : Services) (item : string * string) (df : DataFrame) :
  cited_rows sv item = Ok df →
  ∃ cs, get_citing_dois sv item.2 = Ok cs
        ∧ record_key <$> df = discovered item <$> cs.
Proof.
  unfold cited_rows.
  intros (rows & (cs & Hcs & Hrows)%bind_Ok & ->)%fmap_Ok.
  exists cs. split; [done |]. by apply (tagged_keys sv).
Qed.

Lemma accumulate_keys (sv : Services) (cited : list (string * string)) (ds : DataFrame) :
  accumulate sv cited [] = Ok ds →
  ∃ citing : list (list json),
    Forall2 (λ item cs, get_citing_dois sv item.2 = Ok cs) cited citing
    ∧ record_key <$> ds = discovery_order cited citing.
Proof.
  rewrite accumulate_rows. intros (dfs & Hdfs%mapM_Ok & ->)%fmap_Ok.
  rewrite app_nil_l. unfold discovery_order.
  induction Hdfs as [|item df cited dfs Hdf _ (citing & Hciting & IH)].
  - exists []. split; [constructor | done].
  - apply cited_rows_Ok in Hdf as (cs & Hcs & Hkeys).
    exists (cs :: citing). split; [by constructor |].
    simpl. by rewrite fmap_app, Hkeys, IH.
Qed.

Lemma discovery_order_sound (P : string * string → list json → Prop)
    (cited : list (string * string)) (citing : list (list json))
    (k : option json * option json * option json) :
  Forall2 P cited citing → k ∈ discovery_order cited citing →
  ∃ item cs c, item ∈ cited ∧ P item cs ∧ c ∈ cs ∧ k = discovered item c.
Proof.
  unfold discovery_order.
  induction 1 as [|item cs cited citing HP _ IH]; simpl.
  - by intros ?%elem_of_nil.
  - intros [(c & -> & Hc)%list_elem_of_fmap | Hk]%elem_of_app.
    + exists item, cs, c. split; [left | done].
    + destruct (IH Hk) as (item' & cs' & c & ? & ? & ? & ?).
      exists item', cs', c. split; [by right | done].
Qed.

Lemma discovery_order_complete (sv : Services)
    (cited : list (string * string)) (citing : list (list json))
    (item : string * string) (cs : list json) (c : json) :
  Forall2 (λ item cs, get_citing_dois sv item.2 = Ok cs) cited citing →
  item ∈ cited → get_citing_dois sv item.2 = Ok cs → c ∈ cs →
  discovered item c ∈ discovery_order cited citing.
Proof.
  unfold discovery_order. intros Hall Hitem Hcs Hc.
  induction Hall as [|item' cs' cited citing Hcs' _ IH]; simpl.
  - by apply elem_of_nil in Hitem.
  - apply elem_of_app. apply elem_of_cons in Hitem as [<- | Hitem].
    + left. apply list_elem_of_fmap. exists c. split; [done |]. congruence.
    + right. by apply IH.
Qed.

Lemma discovery_order_NoDup (P : string * string → list json → Prop)
    (cited : list (string * string)) (citing : list (list json)) :
  Forall2 P cited citing →
  NoDup cited.*2 →
  (∀ item cs, item ∈ cited → P item cs → NoDup cs) →
  NoDup ((λ k, (k.1.1, k.2)) <$> discovery_order cited citing).
Proof.
  induction 1 as [|item cs cited citing HP Hall IH]; [constructor |].
  rewrite fmap_cons. intros [Hfresh Hnodup]%NoDup_cons Hcs.
  unfold discovery_order in *. simpl. rewrite fmap_app.
  apply NoDup_app. split; [| split].
  - rewrite <- list_fmap_compose. apply NoDup_fmap_2.
    + intros c1 c2. simpl. congruence.
    + apply (Hcs item cs); [left | done].
  - intros k (k1 & -> & (c & -> & Hc)%list_elem_of_fmap)%list_elem_of_fmap.
    intros (k2 & Heq & Hk2)%list_elem_of_fmap.
    destruct (discovery_order_sound P cited citing k2 Hall Hk2)
      as (item' & cs' & c' & Hitem' & _ & _ & ->).
    simpl in Heq. apply Hfresh. apply list_elem_of_fmap. exists item'.
    split; [congruence | done].
  - apply IH; [done |]. intros item' cs' Hitem'. apply Hcs. by right.
Qed.

Lemma lookup_fails_citing_row (sv : Services) (c : json) :
  lookup_fails sv c → ∃ e, citing_row sv c = Error e.
Proof.
  unfold citing_row.
  intros [[e He] | (fa_name & la_name & e & Hn & Hg)]; [rewrite He; by eexists |].
  rewrite Hn, bind_Ok_l. cbv beta iota.
  destruct (name_to_gender sv fa_name) as [fa|e1]; [| by eexists].
  destruct Hg as [Hg | Hg]; [done |]. rewrite Hg. by eexists.
Qed.

Lemma citing_row_returns (sv : Services) (c : json) :
  ¬ lookup_fails sv c → ∃ row, citing_row sv c = Ok row.
Proof.
  intros Hok. unfold citing_row, lookup_fails in *.
  destruct (names_from_xref sv c) as [[fa_name la_name]|e]; [| destruct Hok; eauto].
  rewrite bind_Ok_l. cbv beta iota.
  destruct (name_to_gender sv fa_name) as [fa|e] eqn:Hfa;
    [| destruct Hok; right; by exists fa_name, la_name, e; eauto].
  destruct (name_to_gender sv la_name) as [la|e] eqn:Hla;
    [| destruct Hok; right; by exists fa_name, la_name, e; eauto].
  by eexists.
Qed.

Lemma mapM_returns {A B} (f : A → result B) (l : list A) :
  (∀ x, x ∈ l → ∃ y, f x = Ok y) → ∃ k, mapM f l = Ok k.
Proof.
  induction l as [|x l IH]; intros Hall; [by eexists |].
  destruct (Hall x) as [y Hy]; [left |].
  destruct IH as [k Hk]; [intros; apply Hall; by right |].
  exists (y :: k). simpl. by rewrite Hy, Hk.
Qed.

(** The run returns a table when the citation index answers for every cited
    work and no look-up fails for any of the citing DOIs it lists. *)
Lemma run_returns (sv : Services) (cited : list (string * string)) :
  (∀ item, item ∈ cited →
     ∃ cs, get_citing_dois sv item.2 = Ok cs ∧ ∀ c, c ∈ cs → ¬ lookup_fails sv c) →
  ∃ ds, accumulate sv cited [] = Ok ds.
Proof.
  intros Hall. rewrite accumulate_rows.
  destruct (mapM_returns (cited_rows sv) cited) as [dfs Hdfs].
  - intros item (cs & Hcs & Hok)%Hall. unfold cited_rows. run Hcs.
    destruct (mapM_returns (citing_row sv) cs) as [rows ->]; [| by eexists].
    intros c Hc. by apply citing_row_returns, Hok.
  - rewrite Hdfs. by eexists.
Qed.

(** C2, as amended: nothing catches a failed look-up. When the author
    resolution or a gender inference fails for a citing DOI that the citation
    index lists for one of the cited works, the whole run ends in an error and
    produces no table. *)
Theorem lookup_failure_aborts_run (sv : Services) (cited : list (string * string))
    (table : DataFrame) (item : string * string) (cs : list json) (c : json) :
  item ∈ cited → get_citing_dois sv item.2 = Ok cs → c ∈ cs →
  lookup_fails sv c →
  ∃ e, accumulate sv cited table = Error e.
Proof.
  intros Hitem Hcs Hc [e He]%lookup_fails_citing_row.
  destruct (mapM_Error (citing_row sv) cs c e Hc He) as [e1 Hrows].
  assert (cited_rows sv item = Error e1) as Hitem_rows.
  { unfold cited_rows. run Hcs. by rewrite Hrows. }
  destruct (mapM_Error (cited_rows sv) cited item e1 Hitem Hitem_rows) as [e2 Hall].
  exists e2. by rewrite accumulate_rows, Hall.
Qed.

Lemma lookup_failure_aborts_run_example :
  ∃ e, accumulate Canned.unreachable cited_dois [] = Error e.
Proof.
  apply (lookup_failure_aborts_run Canned.unreachable cited_dois []
           ("paper", "10.1038/s41593-020-0658-y")
           [JStr "10.0/A"; JStr "10.0/B"] (JStr "10.0/A")).
  - apply list_elem_of_here.
  - reflexivity.
  - apply list_elem_of_here.
  - left. exists RequestException. reflexivity.
Defined.

(** C2, as stated, fails: Crossref cannot be reached for the first of two
    citing DOIs, the second could be looked up, and the run ends in the
    error of the first instead of going on to the second. *)
Lemma unreachable_author_index_aborts_run :
  get_citing_dois Canned.unreachable "10.1038/s41593-020-0658-y"
    = Ok [JStr "10.0/A"; JStr "10.0/B"]
  ∧ names_from_xref Canned.unreachable (JStr "10.0/A") = Error RequestException
  ∧ (∃ row, citing_row Canned.unreachable (JStr "10.0/B") = Ok row)
  ∧ citing_papers Canned.unreachable = Error RequestException.
Proof.
  split; [reflexivity |]. split; [reflexivity |].
  split; [eexists; vm_compute; reflexivity | vm_compute; reflexivity].
Qed.

(** C3, as amended: in the table of a run that returned, every record is the
    record of a citing DOI the citation index lists for one of the cited
    works, and carries the label and the DOI of that work; when the cited
    works have distinct DOIs and no list of the index repeats a citing DOI,
    no two records share their citing DOI and cited DOI; every citing DOI
    has a record under each cited work it is listed for; and there is one
    record for each occurrence of a citing DOI in the lists of the index,
    no more and no fewer: the records are, one for one, the entries of the
    lists of the cited works, taken one list after the other. *)
Theorem dataset_records_by_cited_work (sv : Services) (cited : list (string * string))
    (ds : DataFrame) :
  accumulate sv cited [] = Ok ds →
  (∀ r, r ∈ ds →
     ∃ item cs c, item ∈ cited ∧ get_citing_dois sv item.2 = Ok cs ∧ c ∈ cs
                  ∧ record_key r = discovered item c)
  ∧ (NoDup cited.*2 →
     (∀ item cs, item ∈ cited → get_citing_dois sv item.2 = Ok cs → NoDup cs) →
     NoDup (citing_cited <$> ds))
  ∧ (∀ item cs c,
       item ∈ cited → get_citing_dois sv item.2 = Ok cs → c ∈ cs →
       ∃ r, r ∈ ds ∧ record_key r = discovered item c)
  ∧ (∃ citing : list (list json),
       Forall2 (λ item cs, get_citing_dois sv item.2 = Ok cs) cited citing
       ∧ record_key <$> ds = discovery_order cited citing).
Proof.
  intros (citing & Hciting & Hkeys)%accumulate_keys. split; [| split; [| split]].
  - intros r Hr. apply (list_elem_of_fmap_2 record_key) in Hr.
    rewrite Hkeys in Hr. by eapply discovery_order_sound.
  - intros Hcited Hlists.
    replace (citing_cited <$> ds) with ((λ k, (k.1.1, k.2)) <$> (record_key <$> ds))
      by (by rewrite <- list_fmap_compose).
    rewrite Hkeys. by eapply discovery_order_NoDup.
  - intros item cs c Hitem Hcs Hc.
    pose proof (discovery_order_complete _ _ _ _ _ _ Hciting Hitem Hcs Hc) as Hin.
    rewrite <- Hkeys in Hin. apply list_elem_of_fmap in Hin as (r & Hr & Hin).
    by exists r.
  - by exists citing.
Qed.

Lemma plain_run_returns :
  accumulate Canned.plain cited_dois [] = Ok (rows_of (citing_papers Canned.plain)).
Proof. vm_compute. reflexivity. Defined.

Lemma plain_lists_NoDup (item : string * string) (cs : list json) :
  item ∈ cited_dois → get_citing_dois Canned.plain item.2 = Ok cs → NoDup cs.
Proof.
  unfold cited_dois. rewrite !elem_of_cons, elem_of_nil.
  intros [-> | [-> | [-> | []]]]; intros [= <-].
  - apply NoDup_cons. split; [| apply NoDup_singleton].
    rewrite list_elem_of_singleton. discriminate.
  - apply NoDup_singleton.
  - apply NoDup_nil_2.
Defined.

Lemma dataset_records_by_cited_work_example :
  NoDup (citing_cited <$> rows_of (citing_papers Canned.plain))
  ∧ (∃ r, r ∈ rows_of (citing_papers Canned.plain)
          ∧ record_key r = discovered ("paper", "10.1038/s41593-020-0658-y") (JStr "10.0/A"))
  ∧ (∃ r, r ∈ rows_of (citing_papers Canned.plain)
          ∧ record_key r = discovered ("preprint", "10.1101/2020.01.03.894378") (JStr "10.0/A"))
  ∧ (∃ citing : list (list json),
       Forall2 (λ item cs, get_citing_dois Canned.plain item.2 = Ok cs) cited_dois citing
       ∧ record_key <$> rows_of (citing_papers Canned.plain)
         = discovery_order cited_dois citing).
Proof.
  destruct (dataset_records_by_cited_work Canned.plain cited_dois
              (rows_of (citing_papers Canned.plain)) plain_run_returns)
    as (_ & Hnodup & Hall & Hcount).
  split; [| split; [| split; [| exact Hcount]]].
  - apply Hnodup; [| apply plain_lists_NoDup].
    apply (bool_decide_unpack _). vm_compute. exact I.
  - apply (Hall ("paper", "10.1038/s41593-020-0658-y") [JStr "10.0/A"; JStr "10.0/B"]).
    + apply list_elem_of_here.
    + reflexivity.
    + apply list_elem_of_here.
  - apply (Hall ("preprint", "10.1101/2020.01.03.894378") [JStr "10.0/A"]).
    + apply list_elem_of_further, list_elem_of_here.
    + reflexivity.
    + apply list_elem_of_here.
Defined.

(** C3, as stated, fails when the citation index lists a citing DOI twice
    for a cited work: the table then has two records of that citing DOI
    under that cited DOI. *)
Lemma repeated_citing_doi_repeated_record :
  get_citing_dois Canned.repeating "10.1038/s41593-020-0658-y"
    = Ok [JStr "10.0/B"; JStr "10.0/B"]
  ∧ ∃ ds, citing_papers Canned.repeating = Ok ds
          ∧ citing_cited <$> ds
            = [ (Some (JStr "10.0/B"), Some (JStr "10.1038/s41593-020-0658-y"));
                (Some (JStr "10.0/B"), Some (JStr "10.1038/s41593-020-0658-y")) ].
Proof.
  split; [reflexivity |].
  exists (rows_of (citing_papers Canned.repeating)).
  split; vm_compute; reflexivity.
Qed.

(** C4: the records of a run that returned are in the order of discovery:
    the cited works in the order they were given, and under each cited work
    its citing DOIs in the order the citation index listed them, one record
    for each. *)
Theorem dataset_in_discovery_order (sv : Services) (cited : list (string * string))
    (ds : DataFrame) :
  accumulate sv cited [] = Ok ds →
  ∃ citing : list (list json),
    Forall2 (λ item cs, get_citing_dois sv item.2 = Ok cs) cited citing
    ∧ record_key <$> ds = discovery_order cited citing.
Proof. apply accumulate_keys. Qed.

Lemma dataset_in_discovery_order_example :
  (∃ citing : list (list json),
     Forall2 (λ item cs, get_citing_dois Canned.plain item.2 = Ok cs) cited_dois citing
     ∧ record_key <$> rows_of (citing_papers Canned.plain)
       = discovery_order cited_dois citing)
  ∧ record_key <$> rows_of (citing_papers Canned.plain)
    = [ discovered ("paper", "10.1038/s41593-020-0658-y") (JStr "10.0/A");
        discovered ("paper", "10.1038/s41593-020-0658-y") (JStr "10.0/B");
        discovered ("preprint", "10.1101/2020.01.03.894378") (JStr "10.0/A") ].
Proof.
  split.
  - apply (dataset_in_discovery_order Canned.plain cited_dois).
    vm_compute. reflexivity.
  - vm_compute. reflexivity.
Defined.

(** * Further properties of the script *)

(** ** [get_citing_dois], every answer *)

Lemma get_citing_dois_loop_not_object (item : json) (items acc : list json) :
  (∀ fields, item ≠ JObj fields) →
  get_citing_dois_loop (item :: items) acc = Error TypeError.
Proof. intros Hno. simpl. destruct item; try done. by destruct (Hno fields). Qed.

Lemma mapM_citing_has_field (items citing : list json) :
  mapM (λ item, py_getitem item "citing") items = Ok citing →
  Forall2 (λ item c, has_field "citing" c item) items citing.
Proof.
  intros HM%mapM_Ok. eapply Forall2_impl; [done |].
  intros item c Hget. destruct item; try done. simpl in Hget.
  destruct (dict_get "citing" fields) as [v|] eqn:Hv; [|done].
  injection Hget as <-. by exists fields.
Qed.

(** A list is returned in exactly two cases: the citation index answered
    with a falsy value (null, false, 0, an empty string, array or object) and
    the list is empty, or it answered with an array of objects that all hold
    a [citing] field and the list is made of these fields, one for each
    element and in their order. *)
Theorem get_citing_dois_returns_iff (sv : Services) (cited_doi : string)
    (citing : list json) :
  get_citing_dois sv cited_doi = Ok citing ↔
  ∃ answer, requests_get_json sv (citations_url cited_doi) = Ok answer
    ∧ ((py_truthy answer = false ∧ citing = [])
       ∨ ∃ items, answer = JArr items
                  ∧ Forall2 (λ item c, has_field "citing" c item) items citing).
Proof.
  split.
  - intros Hget. unfold get_citing_dois in Hget. fold (citations_url cited_doi) in Hget.
    apply bind_Ok in Hget as (answer & Hanswer & Hget). exists answer.
    split; [done |]. destruct (py_truthy answer) eqn:Htrue.
    + right. apply bind_Ok in Hget as (its & Hits & Hloop).
      destruct answer as [| | |s|items|fields]; try done.
      * destruct s as [|ch s]; [done |]. injection Hits as <-.
        by rewrite get_citing_dois_loop_not_object in Hloop.
      * injection Hits as <-. exists items. split; [done |].
        rewrite get_citing_dois_loop_mapM in Hloop.
        apply fmap_Ok in Hloop as (cs & Hcs & ->).
        by apply mapM_citing_has_field.
      * destruct fields as [|[k v] fields]; [done |]. injection Hits as <-.
        by rewrite get_citing_dois_loop_not_object in Hloop.
    + left. by injection Hget as <-.
  - intros (answer & Hanswer & [[Hfalse ->] | (items & -> & Hitems)]).
    + unfold get_citing_dois. fold (citations_url cited_doi).
      run Hanswer. by rewrite Hfalse.
    + rewrite (get_citing_dois_array _ _ _ Hanswer). apply mapM_Ok.
      eapply Forall2_impl; [done |]. intros item c. apply has_field_getitem.
Qed.

(** When the citation index answers with an object that is not empty (an
    error message, say) or with a string that is not empty, the loop runs
    over its keys or characters and the first [item["citing"]] raises
    [TypeError]. *)
Theorem get_citing_dois_object_answer (sv : Services) (cited_doi : string)
    (answer : json) :
  requests_get_json sv (citations_url cited_doi) = Ok answer →
  py_truthy answer = true →
  (∃ fields, answer = JObj fields) ∨ (∃ s, answer = JStr s) →
  get_citing_dois sv cited_doi = Error TypeError.
Proof.
  intros Hanswer Htrue Hshape. unfold get_citing_dois.
  fold (citations_url cited_doi). run Hanswer. rewrite Htrue.
  destruct Hshape as [[fields ->] | [s ->]].
  - destruct fields as [|[k v] fields]; [done | reflexivity].
  - destruct s as [|ch s]; [done | reflexivity].
Qed.

Lemma get_citing_dois_object_answer_example :
  get_citing_dois
    {| requests_get_json := λ _, Ok (JObj [("error", JStr "no such DOI")]);
       crossref_works := λ _, Error RequestException;
       GENDER_API_KEY := "k" |} "10.5281/zenodo.3672109" = Error TypeError.
Proof.
  eapply get_citing_dois_object_answer; [reflexivity | reflexivity |].
  left. by eexists.
Defined.

Lemma mapM_first_Error {A B} (f : A → result B) (pre post : list A) (x : A) (e : exn) :
  (∀ y, y ∈ pre → ∃ b, f y = Ok b) → f x = Error e →
  mapM f (pre ++ x :: post) = Error e.
Proof.
  intros Hpre Hx. induction pre as [|y pre IH]; simpl.
  - by rewrite Hx.
  - destruct (Hpre y) as [b ->]; [left |]. simpl.
    rewrite IH; [done |]. intros z Hz. apply Hpre. by right.
Qed.

(** One element without a [citing] field spoils the whole answer: when the
    elements before it hold one and it is an object that does not, the call
    raises [KeyError] and none of the DOIs found so far is returned. *)
Theorem get_citing_dois_missing_citing (sv : Services) (cited_doi : string)
    (before after : list json) (fields : list (string * json)) :
  requests_get_json sv (citations_url cited_doi)
    = Ok (JArr (before ++ JObj fields :: after)) →
  (∀ item, item ∈ before → ∃ c, has_field "citing" c item) →
  dict_get "citing" fields = None →
  get_citing_dois sv cited_doi = Error KeyError.
Proof.
  intros Hanswer Hbefore Hnone. rewrite (get_citing_dois_array _ _ _ Hanswer).
  apply mapM_first_Error.
  - intros item [c Hc%has_field_getitem]%Hbefore. eauto.
  - simpl. by rewrite Hnone.
Qed.

Lemma get_citing_dois_missing_citing_example :
  get_citing_dois
    {| requests_get_json := λ _,
         Ok (JArr [JObj [("citing", JStr "10.0/A")]; JObj [("cited", JStr "x")];
                   JObj [("citing", JStr "10.0/B")]]);
       crossref_works := λ _, Error RequestException;
       GENDER_API_KEY := "k" |} "10.5281/zenodo.3672109" = Error KeyError.
Proof.
  apply (get_citing_dois_missing_citing _ _ [JObj [("citing", JStr "10.0/A")]]
           [JObj [("citing", JStr "10.0/B")]] [("cited", JStr "x")]).
  - reflexivity.
  - intros item ->%list_elem_of_singleton. exists (JStr "10.0/A"). by eexists.
  - reflexivity.
Defined.

(** ** [get_name_from_author_dict], on the given name as it is *)

Lemma is_separator_replaced (c : ascii) :
  is_space (if Ascii.eqb c "." then " " else c)%char = is_separator c.
Proof.
  unfold is_separator. destruct (Ascii.eqb_spec c "."%char) as [-> | _]; done.
Qed.

Lemma replace_periods_app (a b : string) :
  replace_periods (a +:+ b) = replace_periods a +:+ replace_periods b.
Proof. induction a as [|c a IH]; [done |]. simpl. by rewrite IH. Qed.

Lemma replace_periods_solid (s : string) :
  solid (replace_periods s) = no_separator s.
Proof.
  induction s as [|c s IH]; [done |]. simpl.
  by rewrite is_separator_replaced, IH.
Qed.

Lemma replace_periods_no_separator (s : string) :
  no_separator s = true → replace_periods s = s.
Proof.
  induction s as [|c s IH]; [done |]. simpl.
  intros [Hc%negb_true_iff Hs]%andb_prop. rewrite (IH Hs).
  unfold is_separator in Hc. apply orb_false_iff in Hc as [-> _]. done.
Qed.

Lemma replace_periods_at_break (s : string) :
  at_break (replace_periods s) = at_separator s.
Proof. destruct s as [|c s]; [done |]. apply is_separator_replaced. Qed.

Lemma replace_periods_split (s a b : string) :
  replace_periods s = a +:+ b →
  ∃ a' b', s = a' +:+ b' ∧ replace_periods a' = a ∧ replace_periods b' = b.
Proof.
  revert s. induction a as [|c a IH]; intros s Hs.
  - by exists "", s.
  - destruct s as [|c' s]; [done |]. simpl in Hs. injection Hs as Hc Hs.
    destruct (IH s Hs) as (a' & b' & -> & <- & <-).
    exists (String c' a'), b'. simpl. by rewrite Hc.
Qed.

Lemma first_token_replaced (given t : string) :
  first_token (replace_periods given) t ↔ first_name_of given t.
Proof.
  split.
  - intros (ws & rest & Heq & Hws & Hne & Ht & Hrest).
    apply replace_periods_split in Heq as (pre & tl & -> & <- & Htl).
    apply replace_periods_split in Htl as (mid & post & -> & <- & <-).
    rewrite replace_periods_solid in Ht.
    rewrite replace_periods_blank in Hws.
    rewrite replace_periods_at_break in Hrest.
    rewrite (replace_periods_no_separator _ Ht) in *.
    by exists pre, post.
  - intros (pre & rest & -> & Hpre & Hne & Ht & Hrest).
    pose proof (replace_periods_no_separator _ Ht) as Hsame.
    pose proof Ht as Hsolid. rewrite <- replace_periods_solid, Hsame in Hsolid.
    exists (replace_periods pre), (replace_periods rest).
    rewrite !replace_periods_app, Hsame.
    by rewrite replace_periods_blank, replace_periods_at_break.
Qed.

(** For an author entry whose given name is a string, the name returned is
    the first run of characters of the given name that are neither periods
    nor whitespace, whole: [t] is returned exactly when the given name is
    some periods and whitespace, then [t], then its end or a period or
    whitespace. *)
Theorem get_name_from_author_dict_first_run (author_dict : list (string * json))
    (given t : string) :
  dict_get "given" author_dict = Some (JStr given) →
  get_name_from_author_dict (JObj author_dict) = Ok t ↔ first_name_of given t.
Proof.
  intros Hg. rewrite (get_name_present _ _ Hg), <- first_token_replaced.
  rewrite <- split_lookup_first. simpl.
  destruct (split (replace_periods given) !! 0) as [t0|]; simpl.
  - split; congruence.
  - split; [done | discriminate].
Qed.

Lemma get_name_from_author_dict_first_run_example :
  get_name_from_author_dict (JObj [("given", JStr " .J.-P. Marie"); ("family", JStr "Doe")])
  = Ok "J".
Proof.
  apply (get_name_from_author_dict_first_run
           [("given", JStr " .J.-P. Marie"); ("family", JStr "Doe")] " .J.-P. Marie" "J").
  - reflexivity.
  - exists " .", ".-P. Marie".
    split; [reflexivity |]. split; [reflexivity |]. split; [discriminate |].
    split; reflexivity.
Defined.

(** A given name that is not empty and holds neither a period nor whitespace
    is returned as it is. *)
Theorem get_name_from_author_dict_plain_name (author_dict : list (string * json))
    (given : string) :
  dict_get "given" author_dict = Some (JStr given) →
  given ≠ "" → no_separator given = true →
  get_name_from_author_dict (JObj author_dict) = Ok given.
Proof.
  intros Hg Hne Hplain. rewrite (get_name_present _ _ Hg). simpl.
  rewrite (replace_periods_no_separator _ Hplain).
  assert (first_token given given) as Htoken.
  { exists "", "". rewrite app_empty. split.
    - clear. induction given as [|c s IH]; [done |].
      rewrite app_String. by f_equal.
    - pose proof Hplain as Hsolid.
      rewrite <- replace_periods_solid, (replace_periods_no_separator _ Hplain) in Hsolid.
      done. }
  apply split_lookup_first in Htoken. by rewrite Htoken.
Qed.

Lemma get_name_from_author_dict_plain_name_example :
  get_name_from_author_dict (JObj [("given", JStr "Jane"); ("family", JStr "Doe")])
  = Ok "Jane".
Proof.
  apply get_name_from_author_dict_plain_name; [reflexivity | discriminate | reflexivity].
Defined.

Lemma first_token_no_separator (given t : string) :
  first_token (replace_periods given) t → no_separator t = true.
Proof. by intros (? & ? & _ & _ & _ & ? & _)%first_token_replaced. Qed.

Lemma get_name_no_separator (author_dict : json) (name : string) :
  get_name_from_author_dict author_dict = Ok name → no_separator name = true.
Proof.
  unfold get_name_from_author_dict.
  intros (has & _ & Hname)%bind_Ok. destruct has; simpl in Hname.
  - apply bind_Ok in Hname as (given & _ & Hname).
    apply bind_Ok in Hname as (replaced & Hreplaced & Hname).
    destruct given; try done. injection Hreplaced as <-.
    destruct (split (replace_periods s) !! 0) as [t|] eqn:Ht; [|done].
    injection Hname as <-. apply split_lookup_first in Ht.
    by eapply first_token_no_separator.
  - by injection Hname as <-.
Qed.

(** ** [names_from_xref], further *)

(** Names come back only for a DOI the metadata index reports a matching
    work for, the first of the works listed being an object. *)
Theorem names_from_xref_returns_matched (sv : Services) (doi : json)
    (names : string * string) :
  names_from_xref sv doi = Ok names → ∃ item, matched_work sv doi item.
Proof.
  unfold names_from_xref.
  intros (works & Hworks & H)%bind_Ok.
  apply bind_Ok in H as (message & Hmessage & H).
  apply bind_Ok in H as (total & Htotal & H).
  apply bind_Ok in H as (found & Hfound & H).
  destruct found; [|done].
  apply bind_Ok in H as (message' & Hmessage' & H).
  apply bind_Ok in H as (items & Hitems & H).
  apply bind_Ok in H as (item & Hitem & H).
  apply bind_Ok in H as (keys & Hkeys & _).
  destruct item as [| | | | |fields]; try done.
  exists fields, works, message, total, items.
  assert (message' = message) as -> by congruence. done.
Qed.

Lemma names_from_xref_returns_matched_example :
  ∃ item, matched_work Canned.plain (JStr "10.0/B") item.
Proof.
  apply (names_from_xref_returns_matched Canned.plain (JStr "10.0/B") ("", "")).
  reflexivity.
Defined.

(** Neither of the two names returned holds a period or whitespace, whatever
    the metadata index answered. *)
Theorem names_from_xref_names_clean (sv : Services) (doi : json)
    (first_author last_author : string) :
  names_from_xref sv doi = Ok (first_author, last_author) →
  no_separator first_author = true ∧ no_separator last_author = true.
Proof.
  unfold names_from_xref.
  intros (works & _ & H)%bind_Ok.
  apply bind_Ok in H as (message & _ & H).
  apply bind_Ok in H as (total & _ & H).
  apply bind_Ok in H as (found & _ & H).
  destruct found; [|done].
  apply bind_Ok in H as (message' & _ & H).
  apply bind_Ok in H as (items & _ & H).
  apply bind_Ok in H as (item & _ & H).
  apply bind_Ok in H as (keys & _ & H).
  destruct (bool_decide ("author" ∈ keys)); [| by injection H as <- <-].
  apply bind_Ok in H as (authors & _ & H).
  apply bind_Ok in H as (author & _ & H).
  apply bind_Ok in H as (name1 & Hname1%get_name_no_separator & H).
  apply bind_Ok in H as (authors' & _ & H).
  apply bind_Ok in H as (author' & _ & H).
  apply bind_Ok in H as (name2 & Hname2%get_name_no_separator & H).
  by injection H as <- <-.
Qed.

Lemma names_from_xref_names_clean_example :
  no_separator "Jane" = true ∧ no_separator "J" = true.
Proof.
  apply (names_from_xref_names_clean Canned.plain (JStr "10.0/A")). reflexivity.
Defined.

(** Only the two ends of the author list count: two matched works whose
    author lists begin with the same entry and end with the same entry give
    the same result, whatever stands between. *)
Theorem names_from_xref_ignores_middle (sv sv' : Services) (doi doi' : json)
    (item item' : list (string * json)) (first final : json)
    (middle middle' : list json) :
  matched_work sv doi item → matched_work sv' doi' item' →
  dict_get "author" item = Some (JArr (first :: middle ++ [final])) →
  dict_get "author" item' = Some (JArr (first :: middle' ++ [final])) →
  names_from_xref sv doi = names_from_xref sv' doi'.
Proof.
  intros Hm Hm' Ha Ha'.
  rewrite (names_from_xref_author_list sv doi item _ first final Hm Ha eq_refl)
    by (by rewrite last_cons, last_snoc).
  rewrite (names_from_xref_author_list sv' doi' item' _ first final Hm' Ha' eq_refl)
    by (by rewrite last_cons, last_snoc).
  done.
Qed.

Lemma names_from_xref_ignores_middle_example :
  names_from_xref Canned.plain (JStr "10.0/A")
  = names_from_xref
      {| requests_get_json := λ _, Error RequestException;
         crossref_works := λ _,
           Ok (Canned.one_work
                 [("author", JArr [Canned.author "Jane A." "Doe"; Canned.author "Max" "Moe";
                                   JNull; Canned.author "J. D." "Roe"])]);
         GENDER_API_KEY := "" |} JNull.
Proof.
  apply (names_from_xref_ignores_middle _ _ _ _ Canned.work_A
           [("author", JArr [Canned.author "Jane A." "Doe"; Canned.author "Max" "Moe";
                             JNull; Canned.author "J. D." "Roe"])]
           (Canned.author "Jane A." "Doe") (Canned.author "J. D." "Roe")
           [] [Canned.author "Max" "Moe"; JNull]);
    [matched | matched | reflexivity | reflexivity].
Defined.

(** ** [name_to_gender], every name *)

(** A guess is returned exactly when the gender service answers the request
    for the name with an object that holds a [gender] and an [accuracy], and
    it is these two values as they are. *)
Theorem name_to_gender_returns_iff (sv : Services) (name : string)
    (gender accuracy : json) :
  name_to_gender sv name = Ok (gender, accuracy) ↔
  ∃ fields, requests_get_json sv (gender_url sv name) = Ok (JObj fields)
            ∧ dict_get "gender" fields = Some gender
            ∧ dict_get "accuracy" fields = Some accuracy.
Proof.
  unfold name_to_gender. fold (gender_url sv name). split.
  - intros (response & Hresponse & H)%bind_Ok.
    apply bind_Ok in H as (g & Hg & H).
    apply bind_Ok in H as (a & Ha & H). injection H as <- <-.
    destruct response as [| | | | |fields]; try done. exists fields.
    simpl in Hg, Ha.
    destruct (dict_get "gender" fields); [|done].
    destruct (dict_get "accuracy" fields); [|done].
    injection Hg as <-. injection Ha as <-. done.
  - intros (fields & Hresponse & Hg & Ha). run Hresponse. simpl.
    by rewrite Hg, Ha.
Qed.

(** ** The records of the table *)

Lemma elem_of_concat {A} (x : A) (ls : list (list A)) :
  x ∈ concat ls → ∃ l, x ∈ l ∧ l ∈ ls.
Proof.
  induction ls as [|l ls IH]; simpl; [by intros ?%elem_of_nil |].
  intros [Hx | (l' & ? & ?)%IH]%elem_of_app.
  - exists l. split; [done | left].
  - exists l'. split; [done | by right].
Qed.

Lemma accumulate_record_inv (sv : Services) (cited : list (string * string))
    (ds : DataFrame) (r : gmap string json) :
  accumulate sv cited [] = Ok ds → r ∈ ds →
  ∃ item c row,
    item ∈ cited ∧ citing_row sv c = Ok row
    ∧ r = <["cited_doi" := JStr item.2]> (<["cited_entity" := JStr item.1]> row).
Proof.
  rewrite accumulate_rows. intros (dfs & Hdfs%mapM_Ok & ->)%fmap_Ok.
  rewrite app_nil_l. intros (df & Hr & Hdf)%elem_of_concat.
  apply list_elem_of_lookup in Hdf as [i Hi].
  destruct (Forall2_lookup_r _ _ _ _ _ Hdfs Hi) as (item & Hitem & Hrows).
  unfold cited_rows in Hrows.
  apply fmap_Ok in Hrows as (rows & (cs & _ & Hrows%mapM_Ok)%bind_Ok & ->).
  unfold tagged, df_assign in Hr.
  apply list_elem_of_fmap in Hr as (r1 & -> & Hr).
  apply list_elem_of_fmap in Hr as (row & -> & Hrow).
  apply list_elem_of_lookup in Hrow as [j Hj].
  destruct (Forall2_lookup_r _ _ _ _ _ Hrows Hj) as (c & _ & Hc).
  exists item, c, row. split; [by eapply list_elem_of_lookup_2 | done].
Qed.

(** Every record of a table the run returned is made of what the services
    answered for its citing DOI: [names_from_xref] returned two names for
    it, which are its two name cells; [name_to_gender] returned a guess for
    each of the two names, and a gender that is a string is the gender cell.
    (Nothing is said of the accuracy cells, which pandas keeps as floats.) *)
Theorem record_holds_the_answers (sv : Services) (cited : list (string * string))
    (ds : DataFrame) (r : gmap string json) :
  accumulate sv cited [] = Ok ds → r ∈ ds →
  ∃ citing_doi fa_name la_name fa la,
    r !! "doi" = Some citing_doi
    ∧ names_from_xref sv citing_doi = Ok (fa_name, la_name)
    ∧ name_to_gender sv fa_name = Ok fa
    ∧ name_to_gender sv la_name = Ok la
    ∧ r !! "first_author_name" = Some (JStr fa_name)
    ∧ r !! "last_author_name" = Some (JStr la_name)
    ∧ (∀ gender, fa.1 = JStr gender → r !! "first_author_gender" = Some (JStr gender))
    ∧ (∀ gender, la.1 = JStr gender → r !! "last_author_gender" = Some (JStr gender)).
Proof.
  intros Hrun Hr.
  destruct (accumulate_record_inv _ _ _ _ Hrun Hr) as (item & c & row & _ & Hrow & ->).
  unfold citing_row in Hrow.
  apply bind_Ok in Hrow as ([fa_name la_name] & Hnames & Hrow).
  apply bind_Ok in Hrow as (fa & Hfa & Hrow).
  apply bind_Ok in Hrow as (la & Hla & Hrow). injection Hrow as <-.
  exists c, fa_name, la_name, fa, la. unfold with_authors.
  split; [| repeat (split; [done |]); split];
    try (intros gender <-);
    repeat (rewrite lookup_insert_ne by done);
    first [apply lookup_insert_eq | apply lookup_singleton_eq].
Qed.

Lemma record_holds_the_answers_example :
  ∃ citing_doi fa_name la_name fa la,
    default ∅ (rows_of (citing_papers Canned.plain) !! 0) !! "doi" = Some citing_doi
    ∧ names_from_xref Canned.plain citing_doi = Ok (fa_name, la_name)
    ∧ name_to_gender Canned.plain fa_name = Ok fa
    ∧ name_to_gender Canned.plain la_name = Ok la
    ∧ default ∅ (rows_of (citing_papers Canned.plain) !! 0) !! "first_author_name"
      = Some (JStr fa_name)
    ∧ default ∅ (rows_of (citing_papers Canned.plain) !! 0) !! "last_author_name"
      = Some (JStr la_name)
    ∧ (∀ gender, fa.1 = JStr gender →
         default ∅ (rows_of (citing_papers Canned.plain) !! 0) !! "first_author_gender"
         = Some (JStr gender))
    ∧ (∀ gender, la.1 = JStr gender →
         default ∅ (rows_of (citing_papers Canned.plain) !! 0) !! "last_author_gender"
         = Some (JStr gender)).
Proof.
  apply (record_holds_the_answers Canned.plain cited_dois
           (rows_of (citing_papers Canned.plain))).
  - vm_compute. reflexivity.
  - apply (list_elem_of_lookup_2 _ 0). vm_compute. reflexivity.
Defined.

(** Every record of a table the run returned has the nine columns of the
    table, each with a cell, and no other. *)
Theorem record_has_the_columns (sv : Services) (cited : list (string * string))
    (ds : DataFrame) (r : gmap string json) :
  accumulate sv cited [] = Ok ds → r ∈ ds → dom r = table_columns.
Proof.
  intros Hrun Hr.
  destruct (accumulate_record_inv _ _ _ _ Hrun Hr) as (item & c & row & _ & Hrow & ->).
  unfold citing_row in Hrow.
  apply bind_Ok in Hrow as ([fa_name la_name] & _ & Hrow).
  apply bind_Ok in Hrow as (fa & _ & Hrow).
  apply bind_Ok in Hrow as (la & _ & Hrow). injection Hrow as <-.
  unfold with_authors, table_columns.
  rewrite !dom_insert_L, dom_singleton_L. simpl. set_solver.
Qed.

Lemma record_has_the_columns_example :
  dom (default ∅ (rows_of (citing_papers Canned.plain) !! 2)) = table_columns.
Proof.
  apply (record_has_the_columns Canned.plain cited_dois
           (rows_of (citing_papers Canned.plain))).
  - vm_compute. reflexivity.
  - apply (list_elem_of_lookup_2 _ 2). vm_compute. reflexivity.
Defined.

(** ** [get_data], further *)

(** The [doi] column of the frame [get_data] returns is the list the
    citation index gave, element for element: one row for each citing DOI,
    in its order. *)
Theorem get_data_doi_column (sv : Services) (cited_doi : string) (df : DataFrame) :
  get_data sv cited_doi = Ok df →
  get_citing_dois sv cited_doi = Ok (df_column "doi" df).
Proof.
  rewrite get_data_rows. intros (citing & -> & Hrows%mapM_Ok)%bind_Ok. f_equal.
  unfold df_column. induction Hrows as [|c row citing df Hrow _ IH]; [done |].
  rewrite fmap_cons, <- IH. by rewrite (citing_row_doi _ _ _ Hrow).
Qed.

Lemma get_data_doi_column_example :
  get_citing_dois Canned.plain "10.1038/s41593-020-0658-y"
  = Ok (df_column "doi" (rows_of (get_data Canned.plain "10.1038/s41593-020-0658-y"))).
Proof. apply get_data_doi_column. vm_compute. reflexivity. Defined.

(** The look-ups stop at the first citing DOI for which one fails:
    [get_data] ends with the error of that look-up, whatever the answers for
    the citing DOIs after it. *)
Theorem get_data_first_failure (sv : Services) (cited_doi : string)
    (before after : list json) (citing_doi : json) (e : exn) :
  get_citing_dois sv cited_doi = Ok (before ++ citing_doi :: after) →
  (∀ c, c ∈ before → ¬ lookup_fails sv c) →
  citing_row sv citing_doi = Error e →
  get_data sv cited_doi = Error e.
Proof.
  intros Hciting Hbefore Hfail. rewrite get_data_rows. run Hciting.
  apply mapM_first_Error; [| done].
  intros c Hc. by apply citing_row_returns, Hbefore.
Qed.

Lemma get_data_first_failure_example :
  get_data
    {| requests_get_json := requests_get_json Canned.plain;
       crossref_works := Canned.crossref
         [("10.0/B", Canned.no_work); ("10.0/A", JNull)];
       GENDER_API_KEY := "k" |} "10.1038/s41593-020-0658-y" = Error TypeError.
Proof.
  apply (get_data_first_failure _ _ [] [JStr "10.0/B"] (JStr "10.0/A"));
    [reflexivity | by intros c ?%elem_of_nil | reflexivity].
Defined.

(** ** The accumulation loop, further *)

(** The loop only appends: the table it returns begins with the table it
    was given, unchanged, and what it adds is what it returns from the empty
    table. *)
Theorem accumulate_appends (sv : Services) (cited : list (string * string))
    (table ds : DataFrame) :
  accumulate sv cited table = Ok ds ↔
  ∃ new, accumulate sv cited [] = Ok new ∧ ds = table ++ new.
Proof.
  rewrite !accumulate_rows. destruct (mapM (cited_rows sv) cited) as [dfs|e]; simpl.
  - split; [intros [= <-]; eauto | by intros (new & [= <-] & ->)].
  - split; [done | by intros (? & ? & _)].
Qed.

(** A cited work for which the citation index lists nothing leaves the table
    as it is, and neither Crossref nor the gender service matters for it. *)
Theorem accumulate_no_citations (sv : Services) (cited_entity doi : string)
    (cited : list (string * string)) (table : DataFrame) :
  get_citing_dois sv doi = Ok [] →
  accumulate sv ((cited_entity, doi) :: cited) table = accumulate sv cited table.
Proof.
  intros Hnone. simpl. unfold get_data. run Hnone. simpl.
  unfold df_append. by rewrite app_nil_r.
Qed.

Lemma accumulate_no_citations_example :
  accumulate Canned.plain [("code", "10.5281/zenodo.3672109")] []
  = accumulate Canned.plain [] [].
Proof. apply accumulate_no_citations. reflexivity. Defined.

(** * Properties of the percentages of the diversity statements *)

Section visualize.
Import Visualize.

(** A dictionary is made when the text holds no percentage or as many as
    [possible_labels] has an entry for (4, 5, 6, 8, 9, 10 or 11); for any
    other number of percentages the look-up of the labels raises
    [KeyError]. *)
Theorem percentages_dict_counts (ints : list float) :
  (length ints ∈ labelled_counts → ∃ d, percentages_dict ints = Ok d)
  ∧ (length ints ∉ labelled_counts → percentages_dict ints = Error KeyError).
Proof.
  unfold labelled_counts. split.
  - intros Hn. do 12 (try destruct ints as [|? ints]);
      try (by eexists);
      exfalso; simpl in Hn;
      repeat (apply elem_of_cons in Hn as [Hn | Hn]; [lia |]);
      by apply elem_of_nil in Hn.
  - intros Hn. do 12 (try destruct ints as [|? ints]); try reflexivity;
      destruct Hn; simpl; repeat constructor.
Qed.

Lemma percentages_dict_counts_example :
  (∃ d, percentages_dict [50.5; 20; 20; 9.5; 0]%float = Ok d)
  ∧ percentages_dict [50.5; 20; 29.5]%float = Error KeyError.
Proof.
  split.
  - apply (proj1 (percentages_dict_counts [50.5; 20; 20; 9.5; 0]%float)).
    unfold labelled_counts. simpl. repeat constructor.
  - apply (proj2 (percentages_dict_counts [50.5; 20; 29.5]%float)).
    unfold labelled_counts. simpl. intros Hn.
    repeat (apply elem_of_cons in Hn as [Hn | Hn]; [discriminate |]).
    by apply elem_of_nil in Hn.
Defined.

(** The dictionary holds the percentages in their order, all of them,
    except that of nine percentages the ninth is left out: [possible_labels]
    has eight labels for nine percentages, and [zip] stops with the
    labels. *)
Theorem percentages_dict_values (ints : list float) (d : list (string * float)) :
  percentages_dict ints = Ok d →
  (length ints ≠ 9 → d.*2 = ints) ∧ (length ints = 9 → d.*2 = take 8 ints).
Proof.
  intros Hd. do 12 (try destruct ints as [|? ints]);
    try discriminate Hd; injection Hd as <-; split; intros Hn; try done.
Qed.

Lemma percentages_dict_values_example :
  ∃ d, percentages_dict [40; 10; 30; 20; 1.1; 0.9; 1; 1; 100]%float = Ok d
       ∧ d.*2 = [40; 10; 30; 20; 1.1; 0.9; 1; 1]%float.
Proof.
  eexists. split; [reflexivity |].
  apply (percentages_dict_values [40; 10; 30; 20; 1.1; 0.9; 1; 1; 100]%float);
    reflexivity.
Defined.

(** In a dictionary that is not empty the first four percentages of the
    text stand under [mm], [mw], [wm] and [ww], in this order. *)
Theorem percentages_dict_first_four (ints : list float) (d : list (string * float)) :
  percentages_dict ints = Ok d → ints ≠ [] →
  ∃ mm mw wm ww rest,
    ints = mm :: mw :: wm :: ww :: rest
    ∧ dict_lookup "mm" d = Some mm ∧ dict_lookup "mw" d = Some mw
    ∧ dict_lookup "wm" d = Some wm ∧ dict_lookup "ww" d = Some ww.
Proof.
  intros Hd Hne. do 12 (try destruct ints as [|? ints]);
    try discriminate Hd; try done; injection Hd as <-;
    by eexists _, _, _, _, _.
Qed.

Lemma percentages_dict_first_four_example :
  ∃ mm mw wm ww rest,
    [40; 10; 30; 20; 0]%float = mm :: mw :: wm :: ww :: rest
    ∧ dict_lookup "mm" [("mm", 40); ("mw", 10); ("wm", 30); ("ww", 20); ("unknown", 0)]%float
      = Some mm
    ∧ dict_lookup "mw" [("mm", 40); ("mw", 10); ("wm", 30); ("ww", 20); ("unknown", 0)]%float
      = Some mw
    ∧ dict_lookup "wm" [("mm", 40); ("mw", 10); ("wm", 30); ("ww", 20); ("unknown", 0)]%float
      = Some wm
    ∧ dict_lookup "ww" [("mm", 40); ("mw", 10); ("wm", 30); ("ww", 20); ("unknown", 0)]%float
      = Some ww.
Proof.
  apply percentages_dict_first_four; [reflexivity | discriminate].
Defined.

(** ** [get_percentages_list] and [get_percentage_differences_lists] *)

Lemma get_percentages_keys_four (d : list (string * float)) (mm wm mw ww : list float) :
  get_percentages_keys ["mm"; "wm"; "mw"; "ww"] d
    [("mm", mm); ("wm", wm); ("mw", mw); ("ww", ww)]
  = v1 ← of_option KeyError (dict_lookup "mm" d);
    v2 ← of_option KeyError (dict_lookup "wm" d);
    v3 ← of_option KeyError (dict_lookup "mw" d);
    v4 ← of_option KeyError (dict_lookup "ww" d);
    Ok [("mm", mm ++ [v1]); ("wm", wm ++ [v2]); ("mw", mw ++ [v3]); ("ww", ww ++ [v4])].
Proof.
  simpl. destruct (dict_lookup "mm" d); [|done].
  destruct (dict_lookup "wm" d); [|done].
  destruct (dict_lookup "mw" d); [|done].
  by destruct (dict_lookup "ww" d).
Qed.

Lemma get_percentage_differences_keys_four (d : list (string * float))
    (mm wm mw ww : list float) :
  get_percentage_differences_keys ["mm"; "wm"; "mw"; "ww"] d
    [("mm", mm); ("wm", wm); ("mw", mw); ("ww", ww)]
  = v1 ← of_option KeyError (dict_lookup "mm" d);
    v2 ← of_option KeyError (dict_lookup "wm" d);
    v3 ← of_option KeyError (dict_lookup "mw" d);
    v4 ← of_option KeyError (dict_lookup "ww" d);
    Ok [("mm", mm ++ [PrimFloat.sub v1 58.4]); ("wm", wm ++ [PrimFloat.sub v2 25.5]);
        ("mw", mw ++ [PrimFloat.sub v3 9.4]); ("ww", ww ++ [PrimFloat.sub v4 6.7])]%float.
Proof.
  simpl. destruct (dict_lookup "mm" d); [|done].
  destruct (dict_lookup "wm" d); [|done].
  destruct (dict_lookup "mw" d); [|done].
  by destruct (dict_lookup "ww" d).
Qed.

Lemma reported_cons_Some (key : string) (d : list (string * float))
    (ds : list (list (string * float))) (v : float) :
  dict_lookup key d = Some v → reported key (d :: ds) = v :: reported key ds.
Proof. unfold reported. simpl. by intros ->. Qed.

Lemma get_percentages_loop_plottable (ds : list (list (string * float)))
    (mm wm mw ww : list float) :
  Forall plottable ds →
  get_percentages_loop ds [("mm", mm); ("wm", wm); ("mw", mw); ("ww", ww)]
  = Ok [("mm", mm ++ reported "mm" ds); ("wm", wm ++ reported "wm" ds);
        ("mw", mw ++ reported "mw" ds); ("ww", ww ++ reported "ww" ds)].
Proof.
  intros Hds. revert mm wm mw ww.
  induction Hds as [|d ds Hd _ IH]; intros mm wm mw ww.
  - simpl. by rewrite !app_nil_r.
  - destruct Hd as [-> | ([v1 H1] & [v2 H2] & [v3 H3] & [v4 H4])].
    + apply IH.
    + destruct d as [|kv d]; [done |].
      change (get_percentages_loop ((kv :: d) :: ds) ?lists)
        with (lists' ← get_percentages_keys lists.*1 (kv :: d) lists;
              get_percentages_loop ds lists').
      change ([("mm", mm); ("wm", wm); ("mw", mw); ("ww", ww)].*1)
        with ["mm"; "wm"; "mw"; "ww"].
      rewrite (reported_cons_Some _ _ _ _ H1), (reported_cons_Some _ _ _ _ H2),
        (reported_cons_Some _ _ _ _ H3), (reported_cons_Some _ _ _ _ H4).
      rewrite get_percentages_keys_four, H1, H2, H3, H4. simpl.
      rewrite IH, <- !app_assoc. done.
Qed.

(** When every dictionary of the column is empty or holds the four
    percentages, the result has the four lists in the order [mm], [wm],
    [mw], [ww], and the list of a key holds the value of every dictionary
    that is not empty, in the order of the column. *)
Theorem get_percentages_list_plottable (ds : list (list (string * float))) :
  Forall plottable ds →
  get_percentages_list ds
  = Ok [("mm", reported "mm" ds); ("wm", reported "wm" ds);
        ("mw", reported "mw" ds); ("ww", reported "ww" ds)].
Proof.
  intros Hds. unfold get_percentages_list.
  by rewrite get_percentages_loop_plottable.
Qed.

Lemma get_percentages_list_plottable_example :
  get_percentages_list
    [ [("mm", 40); ("mw", 10); ("wm", 30); ("ww", 20)]; [];
      [("mm", 55.5); ("mw", 9); ("wm", 25); ("ww", 10.5); ("unknown", 0)] ]%float
  = Ok [("mm", [40; 55.5]); ("wm", [30; 25]); ("mw", [10; 9]); ("ww", [20; 10.5])]%float.
Proof.
  apply (get_percentages_list_plottable
           [ [("mm", 40); ("mw", 10); ("wm", 30); ("ww", 20)]; [];
             [("mm", 55.5); ("mw", 9); ("wm", 25); ("ww", 10.5); ("unknown", 0)] ]%float).
  apply Forall_cons. split; [right; repeat split; by eexists |].
  apply Forall_cons. split; [by left |].
  apply Forall_cons. split; [right; repeat split; by eexists | apply Forall_nil_2].
Defined.

Lemma get_percentages_loop_not_plottable (ds : list (list (string * float)))
    (mm wm mw ww : list float) :
  ¬ Forall plottable ds →
  get_percentages_loop ds [("mm", mm); ("wm", wm); ("mw", mw); ("ww", ww)]
  = Error KeyError.
Proof.
  revert mm wm mw ww. induction ds as [|d ds IH]; intros mm wm mw ww Hds.
  - destruct Hds. constructor.
  - destruct d as [|kv d].
    + apply IH. intros Hall. apply Hds. constructor; [by left | done].
    + change (get_percentages_loop ((kv :: d) :: ds) ?lists)
        with (lists' ← get_percentages_keys lists.*1 (kv :: d) lists;
              get_percentages_loop ds lists').
      change ([("mm", mm); ("wm", wm); ("mw", mw); ("ww", ww)].*1)
        with ["mm"; "wm"; "mw"; "ww"].
      rewrite get_percentages_keys_four.
      destruct (dict_lookup "mm" (kv :: d)) as [v1|] eqn:H1; [|done].
      destruct (dict_lookup "wm" (kv :: d)) as [v2|] eqn:H2; [|done].
      destruct (dict_lookup "mw" (kv :: d)) as [v3|] eqn:H3; [|done].
      destruct (dict_lookup "ww" (kv :: d)) as [v4|] eqn:H4; [|done].
      simpl. apply IH. intros Hall. apply Hds. constructor; [| done].
      right. rewrite H1, H2, H3, H4. eauto.
Qed.

(** When some dictionary of the column is not empty and lacks one of the
    four percentages, the call raises [KeyError]. *)
Theorem get_percentages_list_missing_key (ds : list (list (string * float))) :
  ¬ Forall plottable ds → get_percentages_list ds = Error KeyError.
Proof. apply get_percentages_loop_not_plottable. Qed.

Lemma get_percentages_list_missing_key_example :
  get_percentages_list
    [ [("mm", 40); ("mw", 10); ("wm", 30); ("ww", 20)];
      [("mm", 55.5); ("mw", 9); ("wm", 35.5)] ]%float
  = Error KeyError.
Proof.
  apply get_percentages_list_missing_key.
  intros Hall. apply Forall_cons in Hall as [_ Hall].
  apply Forall_cons in Hall as [[Hd | (_ & _ & _ & [v Hv])] _]; discriminate.
Defined.

Lemma relative_to_expected_four (mm wm mw ww : list float) :
  relative_to_expected [("mm", mm); ("wm", wm); ("mw", mw); ("ww", ww)]
  = [ ("mm", (λ v, PrimFloat.sub v 58.4) <$> mm);
      ("wm", (λ v, PrimFloat.sub v 25.5) <$> wm);
      ("mw", (λ v, PrimFloat.sub v 9.4) <$> mw);
      ("ww", (λ v, PrimFloat.sub v 6.7) <$> ww) ]%float.
Proof. reflexivity. Qed.

Lemma get_percentage_differences_loop_relative (ds : list (list (string * float)))
    (mm wm mw ww : list float) :
  get_percentage_differences_loop ds
    (relative_to_expected [("mm", mm); ("wm", wm); ("mw", mw); ("ww", ww)])
  = relative_to_expected <$>
      get_percentages_loop ds [("mm", mm); ("wm", wm); ("mw", mw); ("ww", ww)].
Proof.
  revert mm wm mw ww. induction ds as [|d ds IH]; intros mm wm mw ww; [done |].
  destruct d as [|kv d]; [apply IH |].
  rewrite relative_to_expected_four.
  change (get_percentage_differences_loop ((kv :: d) :: ds) ?lists)
    with (lists' ← get_percentage_differences_keys lists.*1 (kv :: d) lists;
          get_percentage_differences_loop ds lists').
  change (get_percentages_loop ((kv :: d) :: ds) ?lists)
    with (lists' ← get_percentages_keys lists.*1 (kv :: d) lists;
          get_percentages_loop ds lists').
  change ([("mm", mm); ("wm", wm); ("mw", mw); ("ww", ww)].*1)
    with ["mm"; "wm"; "mw"; "ww"].
  match goal with
  | |- context [?lists.*1] =>
      change (lists.*1) with ["mm"; "wm"; "mw"; "ww"]
  end.
  rewrite get_percentage_differences_keys_four, get_percentages_keys_four.
  destruct (dict_lookup "mm" (kv :: d)) as [v1|]; [|done].
  destruct (dict_lookup "wm" (kv :: d)) as [v2|]; [|done].
  destruct (dict_lookup "mw" (kv :: d)) as [v3|]; [|done].
  destruct (dict_lookup "ww" (kv :: d)) as [v4|]; [|done].
  simpl. rewrite <- IH, relative_to_expected_four. by rewrite !fmap_app.
Qed.

(** The lists of differences are the lists of [get_percentages_list] with
    the benchmark of the key (58.4 for [mm], 25.5 for [wm], 9.4 for [mw], 6.7
    for [ww]) subtracted from every value; the two calls raise for the same
    columns. *)
Theorem get_percentage_differences_lists_relative (ds : list (list (string * float))) :
  get_percentage_differences_lists ds
  = relative_to_expected <$> get_percentages_list ds.
Proof.
  unfold get_percentage_differences_lists, get_percentages_list.
  by rewrite <- get_percentage_differences_loop_relative.
Qed.

End visualize.
